(** * CognitoAuth: the OAuth2 flow orchestrator of amazon-cognito-auth-ts

    A shallow embedding of [src/CognitoAuth.ts].  The class is a mutable
    object whose methods read and write its fields, call out to a storage
    medium, a UI launcher, a token endpoint and an optional user handler, and
    may throw.  Methods are therefore embedded in a small state-and-exception
    monad over a [World]: the object [this], the log of observable calls to
    the collaborators, the clock and the number of random draws taken so far.

    The classes imported by the file ([CognitoToken], [CognitoRefreshToken],
    [CognitoTokenScopes], [CognitoAuthSession], [CognitoConstants],
    [StorageHelper]) are not part of the sources at hand; what the
    orchestrator needs of them is modelled from the specification and marked
    as such. *)

From Stdlib Require Import Ascii ZArith QArith Qround.
From stdpp Require Import base gmap strings list fin_maps.

Local Open Scope Z_scope.

(** ** JavaScript values of type [string | null | undefined] *)

Module Js.

Inductive jstr : Type :=
| undefined
| null
| str (s : string).

#[global] Instance jstr_eq_dec : EqDecision jstr.
Proof. solve_decision. Defined.

(** [if (v)], [!v], [v || d], [v ? a : b] *)
Definition truthy (v : jstr) : bool :=
  match v with
  | str s => negb (String.eqb s "")
  | _ => false
  end.

(** [v == null] *)
Definition nullish (v : jstr) : bool :=
  match v with
  | str _ => false
  | _ => true
  end.

(** [String(v)], also what a template literal and [String.concat] do. *)
Definition to_String (v : jstr) : string :=
  match v with
  | undefined => "undefined"
  | null => "null"
  | str s => s
  end.

(** [s.split(sep)] for a one-character separator. *)
Fixpoint split (sep : ascii) (s : string) : list string :=
  match s with
  | EmptyString => [""]
  | String c r =>
      if Ascii.eqb c sep then "" :: split sep r
      else match split sep r with
           | h :: t => String c h :: t
           | [] => [String c ""]
           end
  end.

(** [arr.join(sep)] *)
Fixpoint join (sep : string) (arr : list string) : string :=
  match arr with
  | [] => ""
  | [x] => x
  | x :: rest => x +:+ sep +:+ join sep rest
  end.

(** [base.concat(a1, ..., an)] *)
Definition concat (base : string) (args : list string) : string :=
  foldl String.app base args.

(** [chars[i]] converted to a string, as [result += chars[i]] does. *)
Definition char_at (chars : string) (i : Z) : string :=
  if i <? 0 then "undefined"
  else match String.get (Z.to_nat i) chars with
       | Some c => String c ""
       | None => "undefined"
       end.

(** [Math.round(x)] on a rational: the nearest integer, halves rounded up. *)
Definition Math_round (x : Q) : Z := Qfloor (x + (1 # 2))%Q.

(** *** [encodeURIComponent]

    Strings are taken as sequences of UTF-8 bytes: every byte other than an
    unreserved ASCII character becomes [%XX]. *)
Definition is_unreserved (c : ascii) : bool :=
  let n := N_of_ascii c in
  ((65 <=? n) && (n <=? 90))%N || ((97 <=? n) && (n <=? 122))%N
  || ((48 <=? n) && (n <=? 57))%N
  || existsb (Ascii.eqb c)
       ["-"; "_"; "."; "!"; "~"; "*"; "'"; "("; ")"]%char.

Definition hex_digit (n : N) : ascii :=
  match String.get (N.to_nat n) "0123456789ABCDEF" with
  | Some c => c
  | None => "0"%char
  end.

Definition percent_encode (c : ascii) : string :=
  let n := N_of_ascii c in
  String "%" (String (hex_digit (n / 16)) (String (hex_digit (n mod 16)) "")).

Fixpoint encodeURIComponent (s : string) : string :=
  match s with
  | EmptyString => ""
  | String c r =>
      (if is_unreserved c then String c "" else percent_encode c)
      +:+ encodeURIComponent r
  end.

(** *** [Set<string>]

    A JavaScript [Set] keeps its members in insertion order and ignores the
    insertion of a member it already has. *)
Definition JsSet := list string.

Definition Set_has (s : JsSet) (x : string) : bool := bool_decide (x ∈ s).

Definition Set_add (s : JsSet) (x : string) : JsSet :=
  if Set_has s x then s else s ++ [x].

(** [new Set(arr)] *)
Definition Set_new (arr : list string) : JsSet := foldl Set_add [] arr.

Definition Set_size (s : JsSet) : nat := length s.

End Js.
Export Js.

(** ** [CognitoConstants] *)

Module CognitoConstants.

(** Modelled from the spec: [CognitoConstants.ts] is not among the sources.
    The strings below are the ones the wire contract of the sign-in URL and
    the field names of a callback response fix: scheme, authorize path,
    query parameter names, the two response types, the token field names
    and the length of the anti-forgery state. *)
Definition DOMAIN_SCHEME : string := "https".
Definition COLONDOUBLESLASH : string := "://".
Definition SLASH : string := "/".
Definition QUESTIONMARK : string := "?".
Definition AMPERSAND : string := "&".
Definition EQUALSIGN : string := "=".
Definition SPACE : string := " ".
Definition POUNDSIGN : string := "#".
Definition DOMAIN_PATH_SIGNIN : string := "oauth2/authorize".
Definition DOMAIN_QUERY_PARAM_REDIRECT_URI : string := "redirect_uri".
Definition DOMAIN_QUERY_PARAM_RESPONSE_TYPE : string := "response_type".
Definition DOMAIN_QUERY_PARAM_IDENTITY_PROVIDER : string := "identity_provider".
Definition DOMAIN_QUERY_PARAM_USERCONTEXTDATA : string := "userContextData".
Definition CLIENT_ID : string := "client_id".
Definition STATE : string := "state".
Definition SCOPE : string := "scope".
Definition TOKEN : string := "token".
Definition CODE : string := "code".
Definition ERROR : string := "error".
Definition IDTOKEN : string := "id_token".
Definition ACCESSTOKEN : string := "access_token".
Definition REFRESHTOKEN : string := "refresh_token".
Definition STATELENGTH : nat := 32.

(** The four error messages; their texts are not observable here. *)
Inductive ErrorMessage : Type :=
| PARAMETERERROR
| SCOPETYPEERROR
| PARSETYPEERROR
| REFRESHTYPEERROR.

End CognitoConstants.
Import CognitoConstants.

(** What can be thrown, or can reject a promise. *)
Inductive JsError : Type :=
| ErrorObj (msg : ErrorMessage)   (* [new Error(msg)] *)
| ErrorValue (msg : ErrorMessage) (* the message constant itself *)
| TypeError                       (* a member access on [null]/[undefined] *)
| TransportError (responseText : string).

(** A settled promise. *)
Inductive Promise (A : Type) : Type :=
| Fulfilled (a : A)
| Rejected (e : JsError).
Arguments Fulfilled {A} a.
Arguments Rejected {A} e.

(** ** The token endpoint *)

(** The form body of a POST, in the order its keys are written. *)
Record Request : Type := {
  req_url : string;
  req_body : list (string * jstr)
}.

(** [resolve(xhr.responseText)] followed by
    [new Map(Object.entries(JSON.parse(data)))], or [reject(xhr.responseText)]. *)
Inductive NetResponse : Type :=
| NetResolve (fields : gmap string jstr)
| NetReject (responseText : string).

(** ** The collaborators *)

(** Everything the orchestrator takes from its environment: the JWT decoder
    behind [CognitoToken], the optional global advanced-security collector,
    [Math.random], the token endpoint, the default storage medium, and the
    constants the specification leaves open. *)
Class Collaborators : Type := {
  (** the [exp] claim of a token string, if it decodes *)
  jwt_exp : string → option Z;
  (** the subject claim of a token string, if it decodes *)
  jwt_username : string → option string;
  (** [AmazonCognitoAdvancedSecurityData.getData], if the global is defined *)
  AmazonCognitoAdvancedSecurityData : option (string → string → string → jstr);
  (** the k-th value of [Math.random()], a number in [0, 1) *)
  Math_random : nat → Q;
  (** the answer of the token endpoint to a request *)
  token_endpoint : Request → NetResponse;
  (** [new StorageHelper().getStorage()] with its present content *)
  default_storage : gmap string jstr;
  STATEORIGINSTRING : string;
  DOMAIN_PATH_SIGNOUT : string;
  DOMAIN_QUERY_PARAM_SIGNOUT_URI : string;
  DOMAIN_PATH_TOKEN : string;
  AUTHORIZATIONCODE : string
}.

(** ** Tokens, scopes and the session *)

(** Modelled from the spec: [CognitoToken.ts] is missing.  A token wraps
    [raw: string | null]; an absent value gives the empty token. *)
Record CognitoToken : Type := { jwtToken : jstr }.

(** Modelled from the spec: [new CognitoToken(token)]; the constructor of the
    missing class keeps a string and turns an absent value into the empty
    token. *)
Definition new_CognitoToken (token : jstr) : CognitoToken :=
  {| jwtToken := match token with str s => str s | _ => null end |}.

(** Modelled from the spec: the getter of the raw token string. *)
Definition getJwtToken (t : CognitoToken) : jstr := jwtToken t.

(** Modelled from the spec: [CognitoRefreshToken.ts] is missing.  It wraps
    [raw: string | null] and has no expiration. *)
Record CognitoRefreshToken : Type := { refreshTokenRaw : jstr }.

(** Modelled from the spec: [new CognitoRefreshToken(token)] of the missing
    class, empty for an absent value. *)
Definition new_CognitoRefreshToken (token : jstr) : CognitoRefreshToken :=
  {| refreshTokenRaw := match token with str s => str s | _ => null end |}.

(** Modelled from the spec: the getter of the raw refresh credential. *)
Definition getToken (t : CognitoRefreshToken) : jstr := refreshTokenRaw t.

(** Modelled from the spec: [CognitoTokenScopes.ts] is missing.  The
    orchestrator builds it from an array and reads it back with [getScopes()]
    as an array (it joins it and builds a [Set] from it). *)
Record CognitoTokenScopes : Type := { getScopes : list string }.

(** Modelled from the spec: [new CognitoTokenScopes(arr)] of the missing
    class. *)
Definition new_CognitoTokenScopes (arr : list string) : CognitoTokenScopes :=
  {| getScopes := arr |}.

(** Modelled from the spec: [CognitoAuthSession.ts] is missing.  A session
    aggregates the three tokens, the scopes and the anti-forgery state; its
    setters replace one field. *)
Record CognitoAuthSession : Type := {
  idToken : CognitoToken;
  accessToken : CognitoToken;
  refreshToken : CognitoRefreshToken;
  tokenScopes : CognitoTokenScopes;
  sessionState : jstr
}.

(** Modelled from the spec: [new CognitoAuthSession()] of the missing class,
    the empty session: empty tokens, no scopes, no state. *)
Definition empty_session : CognitoAuthSession :=
  {| idToken := new_CognitoToken undefined;
     accessToken := new_CognitoToken undefined;
     refreshToken := new_CognitoRefreshToken undefined;
     tokenScopes := new_CognitoTokenScopes [];
     sessionState := null |}.

(** Modelled from the spec: the five setters of the missing session class;
    each replaces its field and nothing else. *)
Definition setIdToken (t : CognitoToken) (s : CognitoAuthSession) :=
  {| idToken := t; accessToken := accessToken s; refreshToken := refreshToken s;
     tokenScopes := tokenScopes s; sessionState := sessionState s |}.
Definition setAccessToken (t : CognitoToken) (s : CognitoAuthSession) :=
  {| idToken := idToken s; accessToken := t; refreshToken := refreshToken s;
     tokenScopes := tokenScopes s; sessionState := sessionState s |}.
Definition setRefreshToken (t : CognitoRefreshToken) (s : CognitoAuthSession) :=
  {| idToken := idToken s; accessToken := accessToken s; refreshToken := t;
     tokenScopes := tokenScopes s; sessionState := sessionState s |}.
Definition setTokenScopes (t : CognitoTokenScopes) (s : CognitoAuthSession) :=
  {| idToken := idToken s; accessToken := accessToken s;
     refreshToken := refreshToken s; tokenScopes := t;
     sessionState := sessionState s |}.
Definition setState (v : jstr) (s : CognitoAuthSession) :=
  {| idToken := idToken s; accessToken := accessToken s;
     refreshToken := refreshToken s; tokenScopes := tokenScopes s;
     sessionState := v |}.

Section Decoding.
Context `{Collaborators}.

(** Modelled from the spec: the expiration and subject claims are decoded
    from the raw string; the empty token has neither. *)
Definition getExpiration (t : CognitoToken) : option Z :=
  match jwtToken t with
  | str s => jwt_exp s
  | _ => None
  end.

(** Modelled from the spec: the subject claim of the missing token class,
    [null] when the token is empty or has no resolvable subject. *)
Definition getUsername (t : CognitoToken) : jstr :=
  match jwtToken t with
  | str s => from_option str null (jwt_username s)
  | _ => null
  end.

(** Modelled from the spec: a token of the missing class is live when it
    has an expiration strictly after [now]. *)
Definition live (now : Z) (t : CognitoToken) : bool :=
  match getExpiration t with
  | Some e => now <? e
  | None => false
  end.

(** Modelled from the spec: a session is valid iff the id token and the
    access token are both present and expire strictly after [now]. *)
Definition isValid (now : Z) (s : CognitoAuthSession) : bool :=
  live now (idToken s) && live now (accessToken s).

End Decoding.

(** ** The orchestrator object *)

Record CognitoAuth : Type := {
  username : jstr;
  clientId : string;
  appWebDomain : string;
  tokenScopesArray : list string;
  redirectUriSignIn : string;
  redirectUriSignOut : string;
  identityProvider : jstr;
  userPoolId : jstr;
  advancedSecurityDataCollectionFlag : bool;
  (** Modelled from the spec: the storage medium offers get, set and remove
      by string key; it hands back what was stored. *)
  storage : gmap string jstr;
  (** [null] after [signOut] *)
  signInUserSession : option CognitoAuthSession;
  state : jstr;
  (** whether the host registered a handler; its calls are logged *)
  userhandler : bool;
  responseType : string
}.

Definition with_username (v : jstr) (a : CognitoAuth) : CognitoAuth :=
  {| username := v; clientId := clientId a; appWebDomain := appWebDomain a;
     tokenScopesArray := tokenScopesArray a;
     redirectUriSignIn := redirectUriSignIn a;
     redirectUriSignOut := redirectUriSignOut a;
     identityProvider := identityProvider a; userPoolId := userPoolId a;
     advancedSecurityDataCollectionFlag := advancedSecurityDataCollectionFlag a;
     storage := storage a; signInUserSession := signInUserSession a;
     state := state a; userhandler := userhandler a;
     responseType := responseType a |}.

Definition with_storage (v : gmap string jstr) (a : CognitoAuth) : CognitoAuth :=
  {| username := username a; clientId := clientId a;
     appWebDomain := appWebDomain a; tokenScopesArray := tokenScopesArray a;
     redirectUriSignIn := redirectUriSignIn a;
     redirectUriSignOut := redirectUriSignOut a;
     identityProvider := identityProvider a; userPoolId := userPoolId a;
     advancedSecurityDataCollectionFlag := advancedSecurityDataCollectionFlag a;
     storage := v; signInUserSession := signInUserSession a;
     state := state a; userhandler := userhandler a;
     responseType := responseType a |}.

Definition with_session (v : option CognitoAuthSession) (a : CognitoAuth)
  : CognitoAuth :=
  {| username := username a; clientId := clientId a;
     appWebDomain := appWebDomain a; tokenScopesArray := tokenScopesArray a;
     redirectUriSignIn := redirectUriSignIn a;
     redirectUriSignOut := redirectUriSignOut a;
     identityProvider := identityProvider a; userPoolId := userPoolId a;
     advancedSecurityDataCollectionFlag := advancedSecurityDataCollectionFlag a;
     storage := storage a; signInUserSession := v;
     state := state a; userhandler := userhandler a;
     responseType := responseType a |}.

Definition with_state (v : jstr) (a : CognitoAuth) : CognitoAuth :=
  {| username := username a; clientId := clientId a;
     appWebDomain := appWebDomain a; tokenScopesArray := tokenScopesArray a;
     redirectUriSignIn := redirectUriSignIn a;
     redirectUriSignOut := redirectUriSignOut a;
     identityProvider := identityProvider a; userPoolId := userPoolId a;
     advancedSecurityDataCollectionFlag := advancedSecurityDataCollectionFlag a;
     storage := storage a; signInUserSession := signInUserSession a;
     state := v; userhandler := userhandler a;
     responseType := responseType a |}.

Definition with_userhandler (v : bool) (a : CognitoAuth) : CognitoAuth :=
  {| username := username a; clientId := clientId a;
     appWebDomain := appWebDomain a; tokenScopesArray := tokenScopesArray a;
     redirectUriSignIn := redirectUriSignIn a;
     redirectUriSignOut := redirectUriSignOut a;
     identityProvider := identityProvider a; userPoolId := userPoolId a;
     advancedSecurityDataCollectionFlag := advancedSecurityDataCollectionFlag a;
     storage := storage a; signInUserSession := signInUserSession a;
     state := state a; userhandler := v;
     responseType := responseType a |}.

Definition with_responseType (v : string) (a : CognitoAuth) : CognitoAuth :=
  {| username := username a; clientId := clientId a;
     appWebDomain := appWebDomain a; tokenScopesArray := tokenScopesArray a;
     redirectUriSignIn := redirectUriSignIn a;
     redirectUriSignOut := redirectUriSignOut a;
     identityProvider := identityProvider a; userPoolId := userPoolId a;
     advancedSecurityDataCollectionFlag := advancedSecurityDataCollectionFlag a;
     storage := storage a; signInUserSession := signInUserSession a;
     state := state a; userhandler := userhandler a;
     responseType := v |}.

(** ** Observable calls and the world *)

Inductive Event : Type :=
| LaunchUri (url : string)
| OnSuccess (authSession : option CognitoAuthSession)
| OnFailure (err : JsError)
| PostRequest (r : Request).

Record World : Type := {
  this : CognitoAuth;
  log : list Event;
  clock : Z;
  draws : nat
}.

Inductive Completion (A : Type) : Type :=
| Normal (a : A)
| Throw (e : JsError).
Arguments Normal {A} a.
Arguments Throw {A} e.

(** A method body: it runs in a world, leaves a world, and completes
    normally or by throwing.  What was done before a throw stays done. *)
Definition M (A : Type) : Type := World → World * Completion A.

#[global] Instance M_ret : MRet M := λ A a w, (w, Normal a).

#[global] Instance M_bind : MBind M := λ A B f m w,
  match m w with
  | (w', Normal a) => f a w'
  | (w', Throw e) => (w', Throw e)
  end.

#[global] Instance M_throw : MThrow JsError M := λ A e w, (w, Throw e).

Definition get_this : M CognitoAuth := λ w, (w, Normal (this w)).

Definition modify_this (f : CognitoAuth → CognitoAuth) : M () := λ w,
  ({| this := f (this w); log := log w; clock := clock w; draws := draws w |},
   Normal ()).

Definition emit (ev : Event) : M () := λ w,
  ({| this := this w; log := log w ++ [ev]; clock := clock w;
      draws := draws w |}, Normal ()).

Definition get_clock : M Z := λ w, (w, Normal (clock w)).

(** [p.then(f)]: the callback runs on fulfilment; if it throws, the
    resulting promise is rejected. *)
Definition then_ {A B} (p : Promise A) (f : A → M B) : M (Promise B) :=
  match p with
  | Fulfilled a => λ w,
      match f a w with
      | (w', Normal b) => (w', Normal (Fulfilled b))
      | (w', Throw e) => (w', Normal (Rejected e))
      end
  | Rejected e => mret (Rejected e)
  end.

(** [p.catch(g)] *)
Definition catch_ {A} (p : Promise A) (g : JsError → M A) : M (Promise A) :=
  match p with
  | Fulfilled a => mret (Fulfilled a)
  | Rejected e => λ w,
      match g e w with
      | (w', Normal b) => (w', Normal (Fulfilled b))
      | (w', Throw e') => (w', Normal (Rejected e'))
      end
  end.

(** [this.signInUserSession.m(...)]: a [TypeError] on [null]. *)
Definition the_session : M CognitoAuthSession :=
  a ← get_this;
  match signInUserSession a with
  | Some s => mret s
  | None => mthrow TypeError
  end.

Definition update_session (f : CognitoAuthSession → CognitoAuthSession) : M () :=
  s ← the_session;
  modify_this (with_session (Some (f s))).

(** Modelled from the spec: [getItem], [setItem] and [removeItem] of the
    storage medium; a key that is not stored reads as [null]. *)
Definition getItem (st : gmap string jstr) (key : string) : jstr :=
  default null (st !! key).

Definition setItem (key : string) (value : jstr) : M () :=
  modify_this (λ a, with_storage (<[key:=value]> (storage a)) a).

Definition removeItem (key : string) : M () :=
  modify_this (λ a, with_storage (delete key (storage a)) a).

Definition launchUri (URL : string) : M () := emit (LaunchUri URL).

(** [Map.has] and [Map.get] *)
Definition has (map : gmap string jstr) (key : string) : bool :=
  bool_decide (is_Some (map !! key)).

Definition get (map : gmap string jstr) (key : string) : jstr :=
  default undefined (map !! key).

(** ** Parsing a callback response *)

Inductive SplitMark : Type :=
| SplitString (sep : ascii)   (* a one-character string such as ["?"] *)
| QUERYPARAMETERREGEX1.

(** Modelled from the spec: [CognitoConstants.QUERYPARAMETERREGEX1] is
    missing; splitting by it yields, at index 1, the portion after the first
    [#], and nothing when there is none. *)
Fixpoint after_pound (s : string) : jstr :=
  match s with
  | EmptyString => undefined
  | String c r => if Ascii.eqb c "#" then str r else after_pound r
  end.

(** Modelled from the spec: [CognitoConstants.QUERYPARAMETERREGEX2] is
    missing; it splits a [key=value] pair at its first [=].  A piece without
    [=] is a key whose value is [undefined]. *)
Fixpoint key_value (s : string) : string * jstr :=
  match s with
  | EmptyString => ("", undefined)
  | String c r =>
      if Ascii.eqb c "=" then ("", str r)
      else let '(k, v) := key_value r in (String c k, v)
  end.

(** [String(url).split(splitMark)[1]] *)
Definition second_part (url : string) (splitMark : SplitMark) : jstr :=
  match splitMark with
  | SplitString sep =>
      match split sep url with
      | _ :: url2 :: _ => str url2
      | _ => undefined
      end
  | QUERYPARAMETERREGEX1 => after_pound url
  end.

Definition getQueryParameters (url : string) (splitMark : SplitMark)
  : gmap string jstr :=
  let url2 := second_part url splitMark in
  let str1 := split "&" (to_String url2) in
  foldl (λ map piece, let '(k, v) := key_value piece in <[k:=v]> map) ∅ str1.

(** ** Comparing scope sets *)

Fixpoint compareSets_loop (items : list string) (set2 : JsSet) : bool :=
  match items with
  | [] => true
  | item :: rest =>
      if negb (Set_has set2 item) then false else compareSets_loop rest set2
  end.

Definition compareSets (set1 set2 : JsSet) : bool :=
  if negb (Nat.eqb (Set_size set1) (Set_size set2)) then false
  else compareSets_loop set1 set2.

(** ** The methods *)

Section Methods.
Context `{Collaborators}.

Definition Math_random_next : M Q := λ w,
  ({| this := this w; log := log w; clock := clock w; draws := S (draws w) |},
   Normal (Math_random (draws w))).

Fixpoint generateRandomString_loop (i : nat) (chars result : string) : M string :=
  match i with
  | O => mret result
  | S i' =>
      r ← Math_random_next;
      let idx := Math_round (r * inject_Z (Z.of_nat (String.length chars) - 1)) in
      generateRandomString_loop i' chars (result +:+ char_at chars idx)
  end.

Definition generateRandomString (length : nat) (chars : string) : M string :=
  generateRandomString_loop length chars "".

Definition keyPrefix (a : CognitoAuth) : string :=
  "CognitoIdentityServiceProvider." +:+ clientId a.

Definition getLastUser (a : CognitoAuth) : jstr :=
  let lastUserKey := keyPrefix a +:+ ".LastAuthUser" in
  let lastUserName := getItem (storage a) lastUserKey in
  if truthy lastUserName then lastUserName else undefined.

Definition getCachedSession (a : CognitoAuth) : CognitoAuthSession :=
  if negb (truthy (username a)) then empty_session
  else
    let keyPrefix := keyPrefix a +:+ "." +:+ to_String (username a) in
    let idTokenKey := keyPrefix +:+ ".idToken" in
    let accessTokenKey := keyPrefix +:+ ".accessToken" in
    let refreshTokenKey := keyPrefix +:+ ".refreshToken" in
    let scopeKey := keyPrefix +:+ ".tokenScopesString" in
    let scopesString := getItem (storage a) scopeKey in
    let scopesArray :=
      if truthy scopesString then split " " (to_String scopesString) else [] in
    {| idToken := new_CognitoToken (getItem (storage a) idTokenKey);
       accessToken := new_CognitoToken (getItem (storage a) accessTokenKey);
       refreshToken :=
         new_CognitoRefreshToken (getItem (storage a) refreshTokenKey);
       tokenScopes := new_CognitoTokenScopes scopesArray;
       sessionState := sessionState empty_session |}.

Definition cacheTokensScopes : M () :=
  a ← get_this;
  let keyPrefix := keyPrefix a in
  s ← the_session;
  let tokenUserName := getUsername (accessToken s) in
  modify_this (with_username tokenUserName);;
  let idTokenKey := keyPrefix +:+ "." +:+ to_String tokenUserName +:+ ".idToken" in
  let accessTokenKey :=
    keyPrefix +:+ "." +:+ to_String tokenUserName +:+ ".accessToken" in
  let refreshTokenKey :=
    keyPrefix +:+ "." +:+ to_String tokenUserName +:+ ".refreshToken" in
  let lastUserKey := keyPrefix +:+ ".LastAuthUser" in
  let scopeKey :=
    keyPrefix +:+ "." +:+ to_String tokenUserName +:+ ".tokenScopesString" in
  let scopesArray := getScopes (tokenScopes s) in
  let scopesString := join " " scopesArray in
  setItem idTokenKey (getJwtToken (idToken s));;
  setItem accessTokenKey (getJwtToken (accessToken s));;
  setItem refreshTokenKey (getToken (refreshToken s));;
  setItem lastUserKey tokenUserName;;
  setItem scopeKey (str scopesString).

Definition clearCachedTokensScopes : M () :=
  a ← get_this;
  let keyPrefix := keyPrefix a in
  let idTokenKey := keyPrefix +:+ "." +:+ to_String (username a) +:+ ".idToken" in
  let accessTokenKey :=
    keyPrefix +:+ "." +:+ to_String (username a) +:+ ".accessToken" in
  let refreshTokenKey :=
    keyPrefix +:+ "." +:+ to_String (username a) +:+ ".refreshToken" in
  let lastUserKey := keyPrefix +:+ ".LastAuthUser" in
  let scopeKey :=
    keyPrefix +:+ "." +:+ to_String (username a) +:+ ".tokenScopesString" in
  removeItem idTokenKey;;
  removeItem accessTokenKey;;
  removeItem refreshTokenKey;;
  removeItem lastUserKey;;
  removeItem scopeKey.

Definition getUserContextData (a : CognitoAuth) : jstr :=
  match AmazonCognitoAdvancedSecurityData with
  | None => undefined
  | Some getData =>
      let _username := if truthy (username a) then to_String (username a) else "" in
      let _userpoolId :=
        if truthy (userPoolId a) then to_String (userPoolId a) else "" in
      if advancedSecurityDataCollectionFlag a
      then getData _username _userpoolId (clientId a)
      else undefined
  end.

Definition getSpaceSeperatedScopeString : M string :=
  s ← the_session;
  let tokenScopes := getScopes (tokenScopes s) in
  let tokenScopesString := join SPACE tokenScopes in
  mret (encodeURIComponent tokenScopesString).

Definition getFQDNSignIn : M string :=
  a ← get_this;
  (if nullish (state a)
   then st ← generateRandomString STATELENGTH STATEORIGINSTRING;
        modify_this (with_state (str st))
   else mret ());;
  a ← get_this;
  let identityProviderParam :=
    if truthy (identityProvider a)
    then Js.concat AMPERSAND [DOMAIN_QUERY_PARAM_IDENTITY_PROVIDER; EQUALSIGN;
                              to_String (identityProvider a)]
    else "" in
  tokenScopesString ← getSpaceSeperatedScopeString;
  let userContextData := getUserContextData a in
  let userContextDataParam :=
    if truthy userContextData
    then AMPERSAND +:+ DOMAIN_QUERY_PARAM_USERCONTEXTDATA +:+ EQUALSIGN
         +:+ to_String (getUserContextData a)
    else "" in
  let uri := Js.concat DOMAIN_SCHEME
    [COLONDOUBLESLASH; appWebDomain a; SLASH; DOMAIN_PATH_SIGNIN; QUESTIONMARK;
     DOMAIN_QUERY_PARAM_REDIRECT_URI; EQUALSIGN;
     encodeURIComponent (redirectUriSignIn a); AMPERSAND;
     DOMAIN_QUERY_PARAM_RESPONSE_TYPE; EQUALSIGN; responseType a; AMPERSAND;
     CLIENT_ID; EQUALSIGN; clientId a; AMPERSAND; STATE; EQUALSIGN;
     to_String (state a); AMPERSAND; SCOPE; EQUALSIGN; tokenScopesString;
     identityProviderParam; userContextDataParam] in
  mret uri.

Definition getFQDNSignOut (a : CognitoAuth) : string :=
  Js.concat DOMAIN_SCHEME
    [COLONDOUBLESLASH; appWebDomain a; SLASH; DOMAIN_PATH_SIGNOUT; QUESTIONMARK;
     DOMAIN_QUERY_PARAM_SIGNOUT_URI; EQUALSIGN;
     encodeURIComponent (redirectUriSignOut a); AMPERSAND; CLIENT_ID; EQUALSIGN;
     clientId a].

Definition getUrlToken (a : CognitoAuth) : string :=
  Js.concat DOMAIN_SCHEME
    [COLONDOUBLESLASH; appWebDomain a; SLASH; DOMAIN_PATH_TOKEN].

Definition signOut : M () :=
  a ← get_this;
  let URL := getFQDNSignOut a in
  modify_this (with_session None);;
  clearCachedTokensScopes;;
  launchUri URL.

(** [makePOSTRequest] sends the request and settles with the endpoint's
    answer; the constant header is left out of the logged request, and so is
    a platform without CORS support, on which the promise is never settled. *)
Definition makePOSTRequest (body : list (string * jstr)) (url : string)
  : M (Promise (gmap string jstr)) :=
  let r := {| req_url := url; req_body := body |} in
  emit (PostRequest r);;
  mret (match token_endpoint r with
        | NetResolve fields => Fulfilled fields
        | NetReject responseText => Rejected (TransportError responseText)
        end).

Definition makePostCode (bodyOption : list (string * jstr))
  : M (Promise (gmap string jstr)) :=
  a ← get_this;
  let url := getUrlToken a in
  let body := bodyOption ++ [("client_id", str (clientId a));
                             ("redirect_uri", str (redirectUriSignIn a))] in
  makePOSTRequest body url.

(** The result is [None] where the method returns [undefined] instead of a
    promise. *)
Definition refreshSession (refreshToken : jstr)
  : M (option (Promise (option CognitoAuthSession))) :=
  a ← get_this;
  if String.eqb (responseType a) TOKEN then
    if userhandler a then
      emit (OnFailure (ErrorValue REFRESHTYPEERROR));;
      mret None
    else mret (Some (Rejected (ErrorValue REFRESHTYPEERROR)))
  else
    p ← makePostCode [("grant_type", str REFRESHTOKEN);
                      ("refresh_token", refreshToken)];
    p ← then_ p (λ map,
      if has map ERROR then
        URL ← getFQDNSignIn;
        launchUri URL;;
        mthrow (ErrorObj REFRESHTYPEERROR)
      else
        (if has map IDTOKEN
         then update_session (setIdToken (new_CognitoToken (get map IDTOKEN)))
         else mret ());;
        (if has map ACCESSTOKEN
         then update_session
                (setAccessToken (new_CognitoToken (get map ACCESSTOKEN)))
         else mret ());;
        cacheTokensScopes;;
        a ← get_this;
        (if userhandler a then emit (OnSuccess (signInUserSession a))
         else mret ());;
        mret (signInUserSession a));
    p ← catch_ p (λ e,
      a ← get_this;
      if userhandler a then
        emit (OnFailure e);;
        mret None
      else mthrow e);
    mret (Some p).

Definition parseCognitoToken (httpRequestResponse : string)
  : M (Promise (gmap string jstr)) :=
  let map := getQueryParameters httpRequestResponse QUERYPARAMETERREGEX1 in
  mret (Fulfilled map).

(** [None]: the method falls off its end and returns [undefined]. *)
Definition parseCognitoCode (httpRequestResponse : string)
  : M (option (Promise (gmap string jstr))) :=
  let response := hd "" (split "#" httpRequestResponse) in
  let map := getQueryParameters response (SplitString "?") in
  if has map ERROR then mthrow (ErrorObj PARSETYPEERROR)
  else
    (if has map STATE
     then update_session (setState (get map STATE))
     else update_session (setState null));;
    if has map CODE then
      let codeParameter := get map CODE in
      let body := [("grant_type", str AUTHORIZATIONCODE);
                   ("code", codeParameter)] in
      p ← makePostCode body;
      mret (Some p)
    else mret None.

Definition resolveCognitoAuthSession (map : gmap string jstr)
  : M (option CognitoAuthSession) :=
  let idToken := new_CognitoToken undefined in
  let accessToken := new_CognitoToken undefined in
  let refreshToken := new_CognitoRefreshToken undefined in
  if has map ERROR then mthrow (ErrorObj PARSETYPEERROR)
  else
    (if has map IDTOKEN
     then update_session (setIdToken (new_CognitoToken (get map IDTOKEN)))
     else update_session (setIdToken idToken));;
    (if has map ACCESSTOKEN
     then update_session
            (setAccessToken (new_CognitoToken (get map ACCESSTOKEN)))
     else update_session (setAccessToken accessToken));;
    (if has map STATE
     then update_session (setState (get map STATE))
     else update_session (setState null));;
    (if has map REFRESHTOKEN
     then update_session
            (setRefreshToken (new_CognitoRefreshToken (get map REFRESHTOKEN)))
     else update_session (setRefreshToken refreshToken));;
    cacheTokensScopes;;
    a ← get_this;
    mret (signInUserSession a).

Definition parseCognitoWebResponse (httpRequestResponse : string)
  : M (Promise (option CognitoAuthSession)) :=
  a ← get_this;
  parsePromise ←
    (if String.eqb (responseType a) TOKEN
     then p ← parseCognitoToken httpRequestResponse; mret (Some p)
     else parseCognitoCode httpRequestResponse);
  match parsePromise with
  | None => mthrow TypeError
  | Some parsePromise =>
      p ← then_ parsePromise (λ data,
        result ← resolveCognitoAuthSession data;
        a ← get_this;
        (if userhandler a then emit (OnSuccess result) else mret ());;
        mret result);
      catch_ p (λ e,
        a ← get_this;
        if userhandler a then
          emit (OnFailure e);;
          mret None
        else mthrow e)
  end.

Definition getSession : M (Promise (option CognitoAuthSession)) :=
  a ← get_this;
  let tokenScopesInputSet := Set_new (tokenScopesArray a) in
  s ← the_session;
  let cachedScopesSet := Set_new (getScopes (tokenScopes s)) in
  URL ← getFQDNSignIn;
  now ← get_clock;
  a ← get_this;
  if match signInUserSession a with
     | Some s => isValid now s
     | None => false
     end
  then
    (if userhandler a then emit (OnSuccess (signInUserSession a)) else mret ());;
    mret (Fulfilled (signInUserSession a))
  else
    modify_this (with_session (Some (getCachedSession a)));;
    (* compare scopes *)
    s ← the_session;
    if negb (compareSets tokenScopesInputSet cachedScopesSet) then
      let tokenScopes := new_CognitoTokenScopes (tokenScopesArray a) in
      let idToken := new_CognitoToken undefined in
      let accessToken := new_CognitoToken undefined in
      let refreshToken := new_CognitoRefreshToken undefined in
      update_session (setTokenScopes tokenScopes);;
      update_session (setIdToken idToken);;
      update_session (setAccessToken accessToken);;
      update_session (setRefreshToken refreshToken);;
      launchUri URL;;
      (if userhandler a then emit (OnSuccess None) else mret ());;
      mret (Fulfilled None)
    else if isValid now s then
      (if userhandler a then emit (OnSuccess (Some s)) else mret ());;
      mret (Fulfilled (Some s))
    else if negb (truthy (getToken (refreshToken s))) then
      launchUri URL;;
      (if userhandler a then emit (OnSuccess None) else mret ());;
      mret (Fulfilled None)
    else
      r ← refreshSession (getToken (refreshToken s));
      match r with
      | None => mthrow TypeError
      | Some p =>
          then_ p (λ data,
            a ← get_this;
            (if userhandler a then emit (OnSuccess (signInUserSession a))
             else mret ());;
            mret (signInUserSession a))
      end.

(** ** Construction *)

Record CognitoAuthOptions : Type := {
  ClientId : string;
  AppWebDomain : string;
  TokenScopesArray : option (list string);
  RedirectUriSignIn : string;
  RedirectUriSignOut : string;
  IdentityProvider : jstr;
  UserPoolId : jstr;
  AdvancedSecurityDataCollectionFlag : option bool;
  Storage : option (gmap string jstr)
}.

Definition constructor (data : CognitoAuthOptions) (implicitFlow : bool)
  : Completion CognitoAuth :=
  if negb (truthy (str (ClientId data))) || negb (truthy (str (AppWebDomain data)))
     || negb (truthy (str (RedirectUriSignIn data)))
     || negb (truthy (str (RedirectUriSignOut data)))
  then Throw (ErrorObj PARAMETERERROR)
  else
    let tokenScopesArray := default [] (TokenScopesArray data) in
    if negb (bool_decide (is_Some (TokenScopesArray data)))
    then Throw (ErrorObj SCOPETYPEERROR)
    else
      let tokenScopes := new_CognitoTokenScopes tokenScopesArray in
      let a0 :=
        {| username := undefined;
           clientId := ClientId data;
           appWebDomain := AppWebDomain data;
           tokenScopesArray := tokenScopesArray;
           redirectUriSignIn := RedirectUriSignIn data;
           redirectUriSignOut := RedirectUriSignOut data;
           identityProvider := IdentityProvider data;
           userPoolId := UserPoolId data;
           advancedSecurityDataCollectionFlag :=
             default false (AdvancedSecurityDataCollectionFlag data);
           storage := default default_storage (Storage data);
           signInUserSession := None;
           state := undefined;
           userhandler := false;
           responseType := if implicitFlow then TOKEN else CODE |} in
      let a1 := with_username (getLastUser a0) a0 in
      let a2 := with_session (Some (getCachedSession a1)) a1 in
      Normal
        (with_session (setTokenScopes tokenScopes <$> signInUserSession a2) a2).

(** [useCodeGrantFlow] and [useImplicitFlow] *)
Definition useCodeGrantFlow : M () := modify_this (with_responseType CODE).
Definition useImplicitFlow : M () := modify_this (with_responseType TOKEN).

End Methods.

(** ** Notions used to state the properties *)

(** The requests sent to the token endpoint, and the URLs launched, as read
    off a log. *)
Definition requests (l : list Event) : list Request :=
  omap (λ ev, match ev with PostRequest r => Some r | _ => None end) l.

Definition launches (l : list Event) : list string :=
  omap (λ ev, match ev with LaunchUri u => Some u | _ => None end) l.

(** The cache keys of a user of this client, by the suffix of the field, and
    the client-scoped pointer to the last signed-in user. *)
Definition userKey (a : CognitoAuth) (user suffix : string) : string :=
  "CognitoIdentityServiceProvider." +:+ clientId a +:+ "." +:+ user +:+ suffix.

Definition lastUserKey (a : CognitoAuth) : string :=
  "CognitoIdentityServiceProvider." +:+ clientId a +:+ ".LastAuthUser".

Definition fieldSuffixes : list string :=
  [".idToken"; ".accessToken"; ".refreshToken"; ".tokenScopesString"].

(** The five keys [cacheTokensScopes] writes and [clearCachedTokensScopes]
    removes for a user. *)
Definition userKeys (a : CognitoAuth) (user : string) : list string :=
  lastUserKey a :: map (userKey a user) fieldSuffixes.

Definition advance (n : nat) (w : World) : World :=
  {| this := this w; log := log w; clock := clock w; draws := (draws w + n)%nat |}.

Definition on_this (f : CognitoAuth → CognitoAuth) (w : World) : World :=
  {| this := f (this w); log := log w; clock := clock w; draws := draws w |}.

Definition logged (evs : list Event) (w : World) : World :=
  {| this := this w; log := log w ++ evs; clock := clock w; draws := draws w |}.

Section Derived.
Context `{Collaborators}.

(** The string [generateRandomString_loop] builds from the k-th draw on. *)
Fixpoint random_string (i : nat) (chars result : string) (k : nat) : string :=
  match i with
  | O => result
  | S i' =>
      let idx :=
        Math_round (Math_random k
                    * inject_Z (Z.of_nat (String.length chars) - 1)) in
      random_string i' chars (result +:+ char_at chars idx) (S k)
  end.

(** The world [getFQDNSignIn] leaves: a state is drawn only if none is set. *)
Definition with_fresh_state (w : World) : World :=
  if nullish (state (this w))
  then on_this
         (with_state
            (str (random_string STATELENGTH STATEORIGINSTRING "" (draws w))))
         (advance STATELENGTH w)
  else w.

(** The wire contract of the sign-in URL, in the words of the specification:
    scheme, provider domain, authorize path, then the query parameters
    redirect_uri, response_type, client_id, state, scope and, when present,
    identity_provider and userContextData. *)
Definition sign_in_url (a : CognitoAuth) (s : CognitoAuthSession) (st : string)
  : string :=
  "https://" +:+ appWebDomain a +:+ "/oauth2/authorize"
  +:+ "?redirect_uri=" +:+ encodeURIComponent (redirectUriSignIn a)
  +:+ "&response_type=" +:+ responseType a
  +:+ "&client_id=" +:+ clientId a
  +:+ "&state=" +:+ st
  +:+ "&scope=" +:+ encodeURIComponent (join " " (getScopes (tokenScopes s)))
  +:+ (if truthy (identityProvider a)
       then "&identity_provider=" +:+ to_String (identityProvider a) else "")
  +:+ (if truthy (getUserContextData a)
       then "&userContextData=" +:+ to_String (getUserContextData a) else "").

(** The storage after [cacheTokensScopes] has saved session [s] of [a]. *)
Definition saved (a : CognitoAuth) (s : CognitoAuthSession) : gmap string jstr :=
  let u := getUsername (accessToken s) in
  <[userKey a (to_String u) ".tokenScopesString" :=
      str (join " " (getScopes (tokenScopes s)))]>
    (<[lastUserKey a := u]>
      (<[userKey a (to_String u) ".refreshToken" := getToken (refreshToken s)]>
        (<[userKey a (to_String u) ".accessToken" := getJwtToken (accessToken s)]>
          (<[userKey a (to_String u) ".idToken" := getJwtToken (idToken s)]>
            (storage a))))).

(** The request [refreshSession] sends for a refresh credential. *)
Definition refresh_request (a : CognitoAuth) (refreshToken : jstr) : Request :=
  {| req_url := getUrlToken a;
     req_body := [("grant_type", str REFRESHTOKEN);
                  ("refresh_token", refreshToken);
                  ("client_id", str (clientId a));
                  ("redirect_uri", str (redirectUriSignIn a))] |}.

End Derived.

(** ** Further methods *)

Section FurtherMethods.
Context `{Collaborators}.

(** [getCurrentUser]: the stored pointer as it is, [null] when absent. *)
Definition getCurrentUser (a : CognitoAuth) : jstr :=
  let lastUserKey :=
    "CognitoIdentityServiceProvider." +:+ clientId a +:+ ".LastAuthUser" in
  let lastAuthUser := getItem (storage a) lastUserKey in
  lastAuthUser.

(** [setUser] and [setUsername] *)
Definition setUser (username : jstr) : M () := modify_this (with_username username).
Definition setUsername (username : jstr) : M () :=
  modify_this (with_username username).

(** [isUserSignedIn], at the time the world's clock shows. *)
Definition isUserSignedIn (w : World) : bool :=
  match signInUserSession (this w) with
  | Some s => isValid (clock w) s
  | None => false
  end
  || isValid (clock w) (getCachedSession (this w)).

(** [bodyString.substring(0, bodyString.length - 1)] *)
Definition drop_last (bodyString : string) : string :=
  String.substring 0 (String.length bodyString - 1) bodyString.

(** The form body [makePOSTRequest] sends: every key of [body], in order,
    as [key=value&], and the last character cut off. *)
Definition bodyString (body : list (string * jstr)) : string :=
  let bodyString :=
    foldl (λ bodyString kv,
             Js.concat bodyString
               [fst kv; EQUALSIGN; to_String (snd kv); AMPERSAND])
          "" body in
  drop_last bodyString.

(** [onSuccessRefreshToken], given [JSON.parse(jsonData)] as a map of its own
    properties.  The function is [async]: what it throws rejects its
    promise. *)
Definition onSuccessRefreshToken (jsonDataObject : gmap string jstr)
  : M (Promise (option CognitoAuthSession)) :=
  then_ (Fulfilled ()) (λ _,
    if has jsonDataObject ERROR then
      URL ← getFQDNSignIn;
      launchUri URL;;
      mret None
    else
      (if has jsonDataObject IDTOKEN
       then update_session
              (setIdToken (new_CognitoToken (get jsonDataObject IDTOKEN)))
       else mret ());;
      (if has jsonDataObject ACCESSTOKEN
       then update_session
              (setAccessToken (new_CognitoToken (get jsonDataObject ACCESSTOKEN)))
       else mret ());;
      cacheTokensScopes;;
      a ← get_this;
      mret (signInUserSession a)).

End FurtherMethods.

(** ** Further notions used to state properties *)

(** The session a refresh answered with [fields] leaves: the id token and
    the access token are taken from the answer where it has them. *)
Definition refreshed (fields : gmap string jstr) (s : CognitoAuthSession)
  : CognitoAuthSession :=
  let s1 :=
    if has fields IDTOKEN
    then setIdToken (new_CognitoToken (get fields IDTOKEN)) s else s in
  if has fields ACCESSTOKEN
  then setAccessToken (new_CognitoToken (get fields ACCESSTOKEN)) s1 else s1.


Section FurtherNotions.
Context `{Collaborators}.


(** The orchestrator after [cacheTokensScopes] has saved the session [s] it
    was made to hold. *)
Definition holding_saved (s : CognitoAuthSession) (a : CognitoAuth)
  : CognitoAuth :=
  with_storage (saved a s)
    (with_username (getUsername (accessToken s)) (with_session (Some s) a)).

(** A scope name that can be stored in the space-separated cache field and
    read back: not empty and without a space. *)
Definition storable_scope (x : string) : Prop :=
  x ≠ "" ∧ " "%char ∉ String.list_ascii_of_string x.

End FurtherNotions.

(** ** A concrete platform

    A decoder that knows four tokens of user [bob], a token endpoint that
    always answers with fresh tokens, and a storage holding an expired
    session of [bob] granted the scope [email]. *)

Module Fixture.

Definition known_tokens : list (string * (Z * string)) :=
  [("bob.id.live", (2000, "bob")); ("bob.access.live", (2000, "bob"));
   ("bob.id.stale", (100, "bob")); ("bob.access.stale", (100, "bob"))].

Definition decode (s : string) : option (Z * string) :=
  snd <$> List.find (λ p, String.eqb (fst p) s) known_tokens.

Definition fresh_tokens : gmap string jstr :=
  <["id_token" := str "bob.id.live"]>
    (<["access_token" := str "bob.access.live"]> ∅).

Definition platform : Collaborators := {|
  jwt_exp s := fst <$> decode s;
  jwt_username s := snd <$> decode s;
  AmazonCognitoAdvancedSecurityData := None;
  Math_random k := (Z.of_nat (k mod 10) # 10)%Q;
  token_endpoint r := NetResolve fresh_tokens;
  default_storage := ∅;
  STATEORIGINSTRING :=
    "ABCDEFGHIJKLMNOPQRSTUVWXYZabcdefghijklmnopqrstuvwxyz0123456789";
  DOMAIN_PATH_SIGNOUT := "logout";
  DOMAIN_QUERY_PARAM_SIGNOUT_URI := "logout_uri";
  DOMAIN_PATH_TOKEN := "oauth2/token";
  AUTHORIZATIONCODE := "authorization_code"
|}.

(** The same platform with the advanced-security collector loaded. *)
Definition platform_with_collector : Collaborators := {|
  jwt_exp s := fst <$> decode s;
  jwt_username s := snd <$> decode s;
  AmazonCognitoAdvancedSecurityData :=
    Some (λ user pool client, str ("ctx-" +:+ user));
  Math_random k := (Z.of_nat (k mod 10) # 10)%Q;
  token_endpoint r := NetResolve fresh_tokens;
  default_storage := ∅;
  STATEORIGINSTRING :=
    "ABCDEFGHIJKLMNOPQRSTUVWXYZabcdefghijklmnopqrstuvwxyz0123456789";
  DOMAIN_PATH_SIGNOUT := "logout";
  DOMAIN_QUERY_PARAM_SIGNOUT_URI := "logout_uri";
  DOMAIN_PATH_TOKEN := "oauth2/token";
  AUTHORIZATIONCODE := "authorization_code"
|}.

Definition bob_storage : gmap string jstr :=
  list_to_map
    [("CognitoIdentityServiceProvider.app1.LastAuthUser", str "bob");
     ("CognitoIdentityServiceProvider.app1.bob.idToken", str "bob.id.stale");
     ("CognitoIdentityServiceProvider.app1.bob.accessToken",
      str "bob.access.stale");
     ("CognitoIdentityServiceProvider.app1.bob.refreshToken",
      str "bob.refresh");
     ("CognitoIdentityServiceProvider.app1.bob.tokenScopesString", str "email");
     ("CognitoIdentityServiceProvider.app1.eve.idToken", str "eve.id")].

Definition options : CognitoAuthOptions := {|
  ClientId := "app1";
  AppWebDomain := "auth.example.com";
  TokenScopesArray := Some ["openid"; "profile"];
  RedirectUriSignIn := "https://app.example.com/cb";
  RedirectUriSignOut := "https://app.example.com/bye";
  IdentityProvider := undefined;
  UserPoolId := undefined;
  AdvancedSecurityDataCollectionFlag := Some true;
  Storage := Some bob_storage
|}.

(** [new CognitoAuth(options, implicitFlow)], or an orchestrator without
    session when construction throws. *)
Definition built (implicitFlow : bool) : CognitoAuth :=
  match constructor (H := platform) options implicitFlow with
  | Normal a => a
  | Throw _ =>
      {| username := undefined; clientId := ""; appWebDomain := "";
         tokenScopesArray := []; redirectUriSignIn := "";
         redirectUriSignOut := ""; identityProvider := undefined;
         userPoolId := undefined; advancedSecurityDataCollectionFlag := false;
         storage := ∅; signInUserSession := None; state := undefined;
         userhandler := false; responseType := "" |}
  end.

(** A world at time 500 holding the orchestrator just built. *)
Definition world (implicitFlow handler : bool) : World :=
  {| this := with_userhandler handler (built implicitFlow);
     log := []; clock := 500; draws := 0 |}.

(** The two worlds most statements are tried on: code flow without a handler,
    implicit flow with one. *)
Definition code_world : World := world false false.
Definition implicit_world : World := world true true.

(** The session the orchestrator just built holds: the cached tokens with
    the configured scopes. *)
Definition held : CognitoAuthSession :=
  {| idToken := new_CognitoToken (str "bob.id.stale");
     accessToken := new_CognitoToken (str "bob.access.stale");
     refreshToken := new_CognitoRefreshToken (str "bob.refresh");
     tokenScopes := new_CognitoTokenScopes ["openid"; "profile"];
     sessionState := null |}.

(** Options that leave [TokenScopesArray] out. *)
Definition options_without_scopes : CognitoAuthOptions := {|
  ClientId := "app1";
  AppWebDomain := "auth.example.com";
  TokenScopesArray := None;
  RedirectUriSignIn := "https://app.example.com/cb";
  RedirectUriSignOut := "https://app.example.com/bye";
  IdentityProvider := undefined;
  UserPoolId := undefined;
  AdvancedSecurityDataCollectionFlag := None;
  Storage := None
|}.

(** The platform with another token endpoint. *)
Definition platform_answering (answer : Request → NetResponse)
  : Collaborators := {|
  jwt_exp s := fst <$> decode s;
  jwt_username s := snd <$> decode s;
  AmazonCognitoAdvancedSecurityData := None;
  Math_random k := (Z.of_nat (k mod 10) # 10)%Q;
  token_endpoint := answer;
  default_storage := ∅;
  STATEORIGINSTRING :=
    "ABCDEFGHIJKLMNOPQRSTUVWXYZabcdefghijklmnopqrstuvwxyz0123456789";
  DOMAIN_PATH_SIGNOUT := "logout";
  DOMAIN_QUERY_PARAM_SIGNOUT_URI := "logout_uri";
  DOMAIN_PATH_TOKEN := "oauth2/token";
  AUTHORIZATIONCODE := "authorization_code"
|}.

(** An endpoint that refuses with an [error] field, and one that is down. *)
Definition refusal : gmap string jstr := <["error" := str "invalid_grant"]> ∅.
Definition platform_refusing : Collaborators :=
  platform_answering (λ _, NetResolve refusal).
Definition platform_down : Collaborators :=
  platform_answering (λ _, NetReject "Service Unavailable").


Definition live_storage : gmap string jstr :=
  list_to_map
    [("CognitoIdentityServiceProvider.app1.LastAuthUser", str "bob");
     ("CognitoIdentityServiceProvider.app1.bob.idToken", str "bob.id.live");
     ("CognitoIdentityServiceProvider.app1.bob.accessToken",
      str "bob.access.live");
     ("CognitoIdentityServiceProvider.app1.bob.refreshToken",
      str "bob.refresh");
     ("CognitoIdentityServiceProvider.app1.bob.tokenScopesString",
      str "openid profile")].

Definition reload_world : World :=
  on_this (with_storage live_storage) code_world.
Definition no_cache_world : World :=
  on_this (with_storage ∅) code_world.
Definition mismatch_world : World :=
  on_this
    (with_session
       (Some (setTokenScopes (new_CognitoTokenScopes ["email"]) held)))
    code_world.

(** Options with an empty client id, and options that leave the collection
    flag out. *)
Definition options_without_client : CognitoAuthOptions := {|
  ClientId := "";
  AppWebDomain := "auth.example.com";
  TokenScopesArray := Some ["openid"];
  RedirectUriSignIn := "https://app.example.com/cb";
  RedirectUriSignOut := "https://app.example.com/bye";
  IdentityProvider := undefined;
  UserPoolId := undefined;
  AdvancedSecurityDataCollectionFlag := None;
  Storage := None
|}.

Definition options_without_flag : CognitoAuthOptions := {|
  ClientId := "app1";
  AppWebDomain := "auth.example.com";
  TokenScopesArray := Some ["openid"; "profile"];
  RedirectUriSignIn := "https://app.example.com/cb";
  RedirectUriSignOut := "https://app.example.com/bye";
  IdentityProvider := undefined;
  UserPoolId := undefined;
  AdvancedSecurityDataCollectionFlag := None;
  Storage := Some bob_storage
|}.

End Fixture.

(** * Properties *)

(** ** Strings *)

Lemma string_app_cons (c : ascii) (s t : string) :
  String c s +:+ t = String c (s +:+ t).
Proof. done. Qed.

Lemma string_app_nil_l (t : string) : "" +:+ t = t.
Proof. done. Qed.

Lemma string_app_assoc (s1 s2 s3 : string) :
  (s1 +:+ s2) +:+ s3 = s1 +:+ (s2 +:+ s3).
Proof.
  induction s1 as [|c s1 IH]; [done|].
  by rewrite !string_app_cons, IH.
Qed.

Lemma string_app_nil_r (s : string) : s +:+ "" = s.
Proof.
  induction s as [|c s IH]; [done|].
  by rewrite string_app_cons, IH.
Qed.

Lemma string_length_app (s t : string) :
  String.length (s +:+ t) = (String.length s + String.length t)%nat.
Proof.
  induction s as [|c s IH]; [done|].
  rewrite string_app_cons. cbn. by rewrite IH.
Qed.

(** Every string is rewritten to a right-nested chain of characters and
    opaque pieces, so that two ways of cutting a text into literals agree. *)
Ltac string_norm :=
  repeat first
    [ rewrite string_app_assoc
    | rewrite string_app_cons
    | rewrite string_app_nil_l
    | rewrite string_app_nil_r ].

Lemma string_app_inv_tail (s1 s2 t : string) : s1 +:+ t = s2 +:+ t → s1 = s2.
Proof.
  revert s2. induction s1 as [|c s1 IH]; intros [|d s2] E.
  - done.
  - exfalso. apply (f_equal String.length) in E.
    rewrite ?string_app_cons, ?string_app_nil_l in E. cbn in E.
    rewrite string_length_app in E. lia.
  - exfalso. apply (f_equal String.length) in E.
    rewrite ?string_app_cons, ?string_app_nil_l in E. cbn in E.
    rewrite string_length_app in E. lia.
  - rewrite !string_app_cons in E. injection E as -> E. f_equal. by apply IH.
Qed.

(** ** Scope sets *)

Section ScopeSets.

Lemma Set_add_elem_of (s : JsSet) (x y : string) :
  y ∈ Set_add s x ↔ y ∈ s ∨ y = x.
Proof.
  unfold Set_add, Set_has. case_bool_decide as Hx.
  - split; [by left|]. intros [?| ->]; done.
  - rewrite elem_of_app, list_elem_of_singleton. done.
Qed.

Lemma Set_add_NoDup (s : JsSet) (x : string) : NoDup s → NoDup (Set_add s x).
Proof.
  intros Hs. unfold Set_add, Set_has. case_bool_decide as Hx; [done|].
  apply NoDup_app. split_and!; [done| |apply NoDup_singleton].
  intros y Hy ->%list_elem_of_singleton. done.
Qed.

Lemma Set_new_spec (arr : list string) :
  NoDup (Set_new arr) ∧ ∀ x, x ∈ Set_new arr ↔ x ∈ arr.
Proof.
  unfold Set_new. induction arr as [|a arr IH] using rev_ind.
  - split; [constructor|done].
  - rewrite foldl_snoc. destruct IH as [IH1 IH2]. split.
    + by apply Set_add_NoDup.
    + intros x. rewrite Set_add_elem_of, IH2, elem_of_app,
        list_elem_of_singleton. done.
Qed.

Lemma Set_has_new (arr : list string) (x : string) :
  Set_has (Set_new arr) x = bool_decide (x ∈ arr).
Proof.
  unfold Set_has. apply bool_decide_ext. apply Set_new_spec.
Qed.

Lemma compareSets_loop_true (items : list string) (set2 : JsSet) :
  compareSets_loop items set2 = true ↔ ∀ x, x ∈ items → x ∈ set2.
Proof.
  induction items as [|item rest IH]; cbn.
  - split; [|done]. intros _ x Hx. by apply elem_of_nil in Hx.
  - unfold Set_has. case_bool_decide as Hi; cbn.
    + rewrite IH. split.
      * intros Hr x [->|Hx]%elem_of_cons; auto.
      * intros Hall x Hx. apply Hall. by right.
    + split; [done|]. intros Hall. exfalso. apply Hi, Hall. by left.
Qed.

(** On duplicate-free lists of one length, inclusion is equality of
    members: the loop over [set1] alone decides both directions. *)
Lemma compareSets_true (set1 set2 : JsSet) :
  NoDup set1 → NoDup set2 →
  compareSets set1 set2 = true ↔
  Set_size set1 = Set_size set2 ∧ ∀ x, x ∈ set1 ↔ x ∈ set2.
Proof.
  intros N1 N2. unfold compareSets, Set_size.
  destruct (Nat.eqb_spec (length set1) (length set2)) as [El|Nl]; cbn.
  - rewrite compareSets_loop_true. split.
    + intros Hsub. split; [done|].
      assert (set1 ≡ₚ set2) as HP.
      { apply submseteq_length_Permutation; [|lia].
        by apply NoDup_submseteq. }
      intros x. by rewrite HP.
    + intros [_ Heq] x. apply Heq.
  - split; [done|]. intros [? _]. done.
Qed.

End ScopeSets.

(** C2. [compareSets] on two scope sets answers [true] exactly when they
    have the same size and the same members, whatever the order in which the
    members were inserted; so the set of [a, b] equals the set of [b, a] and
    differs from the set of [a] alone. *)
Theorem compareSets_size_and_members :
  (∀ arr1 arr2 : list string,
      compareSets (Set_new arr1) (Set_new arr2) = true ↔
      Set_size (Set_new arr1) = Set_size (Set_new arr2)
      ∧ ∀ x, Set_has (Set_new arr1) x = Set_has (Set_new arr2) x)
  ∧ (∀ arr1 arr1' arr2 : list string,
      arr1 ≡ₚ arr1' →
      compareSets (Set_new arr1) (Set_new arr2)
      = compareSets (Set_new arr1') (Set_new arr2))
  ∧ (∀ a b : string, compareSets (Set_new [a; b]) (Set_new [b; a]) = true)
  ∧ compareSets (Set_new ["a"; "b"]) (Set_new ["a"]) = false.
Proof.
  assert (∀ arr1 arr2 : list string,
      compareSets (Set_new arr1) (Set_new arr2) = true ↔
      ∀ x, x ∈ arr1 ↔ x ∈ arr2) as Hmem.
  { intros arr1 arr2.
    destruct (Set_new_spec arr1) as [N1 M1], (Set_new_spec arr2) as [N2 M2].
    rewrite compareSets_true by done. split.
    - intros [_ Heq] x. by rewrite <- M1, <- M2.
    - intros Heq. split.
      + unfold Set_size. apply Permutation_length, NoDup_Permutation; [done..|].
        intros x. by rewrite M1, M2.
      + intros x. by rewrite M1, M2. }
  split_and!.
  - intros arr1 arr2.
    destruct (Set_new_spec arr1) as [N1 M1], (Set_new_spec arr2) as [N2 M2].
    rewrite compareSets_true by done.
    split; intros [Hs Hm]; (split; [done|]); intros x.
    + unfold Set_has. apply bool_decide_ext, Hm.
    + specialize (Hm x). unfold Set_has in Hm.
      by rewrite <- (bool_decide_eq_true (x ∈ Set_new arr1)), Hm,
        bool_decide_eq_true.
  - intros arr1 arr1' arr2 HP.
    destruct (compareSets (Set_new arr1') (Set_new arr2)) eqn:E.
    + apply Hmem. pose proof (proj1 (Hmem _ _) E) as Hm.
      intros x. by rewrite HP.
    + destruct (compareSets (Set_new arr1) (Set_new arr2)) eqn:E'; [|done].
      rewrite <- E. symmetry. apply Hmem.
      pose proof (proj1 (Hmem _ _) E') as Hm.
      intros x. by rewrite <- HP.
  - intros a b. apply Hmem. intros x. rewrite !elem_of_cons. tauto.
  - done.
Qed.

(** ** Cache keys *)

Section Keys.

Lemma list_ascii_of_string_app (s t : string) :
  String.list_ascii_of_string (s +:+ t)
  = String.list_ascii_of_string s ++ String.list_ascii_of_string t.
Proof.
  induction s as [|c s IH]; [done|].
  rewrite string_app_cons. cbn. by rewrite IH.
Qed.

(** The reversed characters of [u +:+ suffix]: the suffix comes first. *)
Lemma rev_chars_app (u suffix : string) :
  rev (String.list_ascii_of_string (u +:+ suffix))
  = rev (String.list_ascii_of_string suffix)
    ++ rev (String.list_ascii_of_string u).
Proof. by rewrite list_ascii_of_string_app, rev_app_distr. Qed.

Ltac clash E :=
  apply (f_equal (λ s, rev (String.list_ascii_of_string s))) in E;
  rewrite ?rev_chars_app in E; cbn in E; discriminate E.

(** No two of the four field suffixes end alike, so a key tells its user
    and its field. *)
Lemma user_suffix_inj (u v suffix suffix' : string) :
  suffix ∈ fieldSuffixes → suffix' ∈ fieldSuffixes →
  u +:+ suffix = v +:+ suffix' → u = v ∧ suffix = suffix'.
Proof.
  unfold fieldSuffixes. rewrite !elem_of_cons, !elem_of_nil.
  intros [->|[->|[->|[->|[]]]]] [->|[->|[->|[->|[]]]]] E;
    first [ split; [by apply string_app_inv_tail in E | done] | clash E ].
Qed.

Lemma userKey_inj (a : CognitoAuth) (u v suffix suffix' : string) :
  suffix ∈ fieldSuffixes → suffix' ∈ fieldSuffixes →
  userKey a u suffix = userKey a v suffix' → u = v ∧ suffix = suffix'.
Proof.
  intros Hs Hs' E. unfold userKey in E.
  do 3 apply String.app_inj in E. by apply user_suffix_inj.
Qed.

Lemma userKey_not_lastUserKey (a : CognitoAuth) (u suffix : string) :
  suffix ∈ fieldSuffixes → userKey a u suffix ≠ lastUserKey a.
Proof.
  unfold fieldSuffixes. rewrite !elem_of_cons, !elem_of_nil.
  unfold userKey, lastUserKey. intros Hs E.
  do 2 apply String.app_inj in E.
  change ".LastAuthUser" with ("." +:+ "LastAuthUser") in E.
  apply String.app_inj in E.
  destruct Hs as [->|[->|[->|[->|[]]]]]; clash E.
Qed.

(** A field key of another user is none of the five keys of user [u]. *)
Lemma other_user_key (a : CognitoAuth) (u v suffix : string) :
  v ≠ u → suffix ∈ fieldSuffixes → userKey a v suffix ∉ userKeys a u.
Proof.
  intros Hne Hs. unfold userKeys. rewrite elem_of_cons, list_elem_of_fmap.
  intros [E|(suffix' & E & Hs')].
  - by apply userKey_not_lastUserKey in E.
  - apply userKey_inj in E as [? _]; done.
Qed.

End Keys.

Lemma suffix_in_fields (suffix : string) :
  suffix = ".idToken" ∨ suffix = ".accessToken" ∨ suffix = ".refreshToken"
  ∨ suffix = ".tokenScopesString" → suffix ∈ fieldSuffixes.
Proof.
  unfold fieldSuffixes. rewrite !elem_of_cons, !elem_of_nil. tauto.
Qed.

(** Two of the five keys of one user are different keys. *)
Ltac key_neq :=
  let E := fresh "E" in
  intros E;
  first
    [ apply userKey_not_lastUserKey in E; [done | apply suffix_in_fields; tauto]
    | symmetry in E;
      apply userKey_not_lastUserKey in E; [done | apply suffix_in_fields; tauto]
    | apply userKey_inj in E as [_ ?];
      [discriminate | apply suffix_in_fields; tauto..] ].

Ltac saved_lookup :=
  unfold saved;
  repeat first [ rewrite lookup_insert_eq | rewrite lookup_insert_ne by key_neq ];
  try reflexivity.

(** ** Running method bodies *)

(** Unfolds the monad and the primitive steps, and computes. *)
Ltac run :=
  repeat (progress (
    unfold mbind, M_bind, mret, M_ret, mthrow, M_throw, update_session,
      the_session, get_this, modify_this, emit, get_clock, setItem,
      removeItem, launchUri;
    cbn -[generateRandomString random_string Js.concat])).

Section Running.
Context `{Collaborators}.

Lemma cacheTokensScopes_run (w : World) (s : CognitoAuthSession) :
  signInUserSession (this w) = Some s →
  cacheTokensScopes w
  = (on_this (λ a, with_storage (saved a s)
                     (with_username (getUsername (accessToken s)) a)) w,
     Normal ()).
Proof.
  destruct w as [a l c d]. cbn. intros Hs.
  unfold cacheTokensScopes. run. rewrite Hs. run. reflexivity.
Qed.
Lemma saved_frame (a : CognitoAuth) (s : CognitoAuthSession) (k : string) :
  k ∉ userKeys a (to_String (getUsername (accessToken s))) →
  saved a s !! k = storage a !! k.
Proof.
  unfold userKeys, fieldSuffixes. cbn. rewrite !not_elem_of_cons.
  intros (? & ? & ? & ? & ? & _). unfold saved.
  by rewrite !lookup_insert_ne.
Qed.

End Running.

(** C9. Saving the session takes the active username from the subject claim
    of the access token and from nothing else: a username supplied by the
    client beforehand does not change the outcome.  The four token and scope
    fields are written under that username, and the pointer to the last
    signed-in user of the client is set to the same username. *)
Theorem cacheTokensScopes_username_of_access_token
  `{Collaborators} (w : World) (s : CognitoAuthSession) :
  signInUserSession (this w) = Some s →
  let a := this w in
  let u := getUsername (accessToken s) in
  ∃ w' : World,
    cacheTokensScopes w = (w', Normal ())
    ∧ username (this w') = u
    ∧ storage (this w') !! userKey a (to_String u) ".idToken"
      = Some (getJwtToken (idToken s))
    ∧ storage (this w') !! userKey a (to_String u) ".accessToken"
      = Some (getJwtToken (accessToken s))
    ∧ storage (this w') !! userKey a (to_String u) ".refreshToken"
      = Some (getToken (refreshToken s))
    ∧ storage (this w') !! userKey a (to_String u) ".tokenScopesString"
      = Some (str (join " " (getScopes (tokenScopes s))))
    ∧ storage (this w') !! lastUserKey a = Some u
    ∧ (∀ k, k ∉ userKeys a (to_String u) →
            storage (this w') !! k = storage a !! k)
    ∧ (∀ supplied : jstr,
          cacheTokensScopes (on_this (with_username supplied) w)
          = (w', Normal ())).
Proof.
  intros Hs a u. eexists. split; [by apply cacheTokensScopes_run|].
  cbn. split_and!; try by saved_lookup.
  - intros k Hk. by apply saved_frame.
  - intros supplied. by rewrite (cacheTokensScopes_run _ s).
Qed.

(** ** Sign-out *)

Lemma signOut_run `{Collaborators} (w : World) :
  signOut w
  = (logged [LaunchUri (getFQDNSignOut (this w))]
       (on_this (λ a,
          let u := to_String (username a) in
          with_storage
            (foldr delete (storage a)
               [userKey a u ".tokenScopesString"; lastUserKey a;
                userKey a u ".refreshToken"; userKey a u ".accessToken";
                userKey a u ".idToken"])
            (with_session None a)) w),
     Normal ()).
Proof.
  destruct w as [a l c d]. unfold signOut, clearCachedTokensScopes. run.
  reflexivity.
Qed.

Lemma lookup_foldr_delete (m : gmap string jstr) (ks : list string) (k : string) :
  foldr delete m ks !! k = if bool_decide (k ∈ ks) then None else m !! k.
Proof.
  induction ks as [|k' ks IH]; cbn; [done|].
  destruct (decide (k' = k)) as [->|Hne].
  - rewrite lookup_delete_eq. by rewrite bool_decide_eq_true_2 by left.
  - rewrite lookup_delete_ne by done. rewrite IH.
    apply (f_equal (λ b : bool, if b then None else m !! k)).
    apply bool_decide_ext. rewrite elem_of_cons.
    split; [by right|]. intros [E|?]; [by subst|done].
Qed.

(** C8, as the code has it.  [signOut] builds the sign-out URL, sets the
    held session to [null] (it does not put an empty session in its place),
    removes exactly the five cache keys built from the current username
    (the four field keys and the client's pointer to the last signed-in
    user), leaves every cache entry of any other username as it was, and
    launches the URL. *)
Theorem signOut_clears_current_user `{Collaborators} (w : World) :
  let a := this w in
  let u := to_String (username a) in
  ∃ w' : World,
    signOut w = (w', Normal ())
    ∧ signInUserSession (this w') = None
    ∧ (∀ k, storage (this w') !! k
            = if bool_decide (k ∈ userKeys a u) then None else storage a !! k)
    ∧ (∀ v suffix, v ≠ u → suffix ∈ fieldSuffixes →
         storage (this w') !! userKey a v suffix
         = storage a !! userKey a v suffix)
    ∧ log w' = log w ++ [LaunchUri (getFQDNSignOut a)].
Proof.
  intros a u. eexists. split; [apply signOut_run|]. cbn.
  fold a u.
  set (ks := [userKey a u ".tokenScopesString"; lastUserKey a;
              userKey a u ".refreshToken"; userKey a u ".accessToken";
              userKey a u ".idToken"]).
  assert (∀ k, foldr delete (storage a) ks !! k
               = if bool_decide (k ∈ userKeys a u) then None
                 else storage a !! k) as Hl.
  { intros k. rewrite lookup_foldr_delete.
    apply (f_equal (λ b : bool, if b then None else storage a !! k)).
    apply bool_decide_ext. unfold ks, userKeys, fieldSuffixes. cbn.
    rewrite !elem_of_cons, !elem_of_nil. tauto. }
  split_and!; [done|exact Hl| |done].
  intros v suffix Hv Hs. rewrite Hl.
  by rewrite bool_decide_eq_false_2 by by apply other_user_key.
Qed.

(** ** Refresh under the implicit flow *)

(** C3. While the response type is [token], [refreshSession] fails at once
    with the refresh-type error: it is handed to the failure handler when one
    is registered, and otherwise comes back as a rejected promise.  Nothing
    is sent to the token endpoint and the orchestrator is left as it was. *)
Theorem refreshSession_implicit_rejects
  `{Collaborators} (w : World) (refreshToken : jstr) :
  responseType (this w) = TOKEN →
  refreshSession refreshToken w
  = (if userhandler (this w)
     then (logged [OnFailure (ErrorValue REFRESHTYPEERROR)] w, Normal None)
     else (w, Normal (Some (Rejected (ErrorValue REFRESHTYPEERROR)))))
  ∧ requests (log (refreshSession refreshToken w).1) = requests (log w)
  ∧ this (refreshSession refreshToken w).1 = this w.
Proof.
  intros Ht. destruct w as [a l c d]. cbn in Ht.
  unfold refreshSession. run. rewrite Ht. cbn.
  destruct (userhandler a); cbn; split_and!; try done.
  unfold requests. rewrite omap_app. cbn. by rewrite app_nil_r.
Qed.

(** ** Construction *)

(** C10. When [TokenScopesArray] is left out of the options, construction
    throws the scope-type error even though the four required fields are
    all given: the field declared optional cannot be omitted. *)
Theorem constructor_requires_scopes
  `{Collaborators} (data : CognitoAuthOptions) (implicitFlow : bool) :
  ClientId data ≠ "" → AppWebDomain data ≠ "" →
  RedirectUriSignIn data ≠ "" → RedirectUriSignOut data ≠ "" →
  TokenScopesArray data = None →
  constructor data implicitFlow = Throw (ErrorObj SCOPETYPEERROR).
Proof.
  intros H1 H2 H3 H4 Hn. unfold constructor, truthy.
  apply String.eqb_neq in H1, H2, H3, H4.
  rewrite H1, H2, H3, H4, Hn. reflexivity.
Qed.

(** ** The sign-in URL *)

Section SignIn.
Context `{Collaborators}.

Lemma generateRandomString_loop_run (i : nat) (chars result : string) (w : World) :
  generateRandomString_loop i chars result w
  = (advance i w, Normal (random_string i chars result (draws w))).
Proof.
  revert result w. induction i as [|i IH]; intros result w.
  - destruct w as [a l c d]. unfold advance. cbn. by rewrite Nat.add_0_r.
  - cbn. unfold mbind, M_bind, Math_random_next. rewrite IH.
    destruct w as [a l c d]. unfold advance. cbn.
    by rewrite Nat.add_succ_r.
Qed.

Lemma generateRandomString_run (length : nat) (chars : string) (w : World) :
  generateRandomString length chars w
  = (advance length w, Normal (random_string length chars "" (draws w))).
Proof. apply generateRandomString_loop_run. Qed.

Lemma getUserContextData_with_state (v : jstr) (a : CognitoAuth) :
  getUserContextData (with_state v a) = getUserContextData a.
Proof. reflexivity. Qed.

(** The pieces [concat] is given add up to the URL of the wire contract. *)
Lemma concat_sign_in (d r t c st sc p q : string) :
  Js.concat DOMAIN_SCHEME
    [COLONDOUBLESLASH; d; SLASH; DOMAIN_PATH_SIGNIN; QUESTIONMARK;
     DOMAIN_QUERY_PARAM_REDIRECT_URI; EQUALSIGN; r; AMPERSAND;
     DOMAIN_QUERY_PARAM_RESPONSE_TYPE; EQUALSIGN; t; AMPERSAND;
     CLIENT_ID; EQUALSIGN; c; AMPERSAND; STATE; EQUALSIGN; st; AMPERSAND;
     SCOPE; EQUALSIGN; sc; p; q]
  = "https://" +:+ d +:+ "/oauth2/authorize" +:+ "?redirect_uri=" +:+ r
    +:+ "&response_type=" +:+ t +:+ "&client_id=" +:+ c +:+ "&state=" +:+ st
    +:+ "&scope=" +:+ sc +:+ p +:+ q.
Proof.
  unfold Js.concat, DOMAIN_SCHEME, COLONDOUBLESLASH, SLASH, QUESTIONMARK,
    AMPERSAND, EQUALSIGN, DOMAIN_PATH_SIGNIN, DOMAIN_QUERY_PARAM_REDIRECT_URI,
    DOMAIN_QUERY_PARAM_RESPONSE_TYPE, CLIENT_ID, STATE, SCOPE. cbn.
  string_norm. reflexivity.
Qed.

Lemma identity_provider_param (v : string) :
  Js.concat AMPERSAND [DOMAIN_QUERY_PARAM_IDENTITY_PROVIDER; EQUALSIGN; v]
  = "&identity_provider=" +:+ v.
Proof. unfold Js.concat. cbn. string_norm. reflexivity. Qed.

Lemma getFQDNSignIn_run (w : World) (s : CognitoAuthSession) :
  signInUserSession (this w) = Some s →
  getFQDNSignIn w
  = (with_fresh_state w,
     Normal (sign_in_url (this w) s
               (to_String (state (this (with_fresh_state w)))))).
Proof.
  destruct w as [a l c d]. intros Hs. cbn in Hs.
  unfold getFQDNSignIn, getSpaceSeperatedScopeString, with_fresh_state.
  unfold mbind at 1. unfold M_bind at 1. cbn [get_this this].
  unfold mbind at 1. unfold M_bind at 1.
  destruct (nullish (state a)) eqn:Hn.
  - unfold mbind at 1. unfold M_bind at 1.
    rewrite generateRandomString_run. run. rewrite Hs. run.
    rewrite concat_sign_in, identity_provider_param. reflexivity.
  - run. rewrite Hs. run.
    rewrite concat_sign_in, identity_provider_param. reflexivity.
Qed.

End SignIn.

(** C7. Whatever the configuration, the sign-in URL is the scheme, the
    provider domain and the authorize path followed by the query parameters
    in this order: redirect_uri (percent-encoded), response_type, client_id,
    state, scope (the session's scopes joined by spaces, percent-encoded),
    then identity_provider only when one is configured, then userContextData
    only when context data is available.  Nothing of the configuration is
    changed by building it. *)
Theorem getFQDNSignIn_parameter_order
  `{Collaborators} (w : World) (s : CognitoAuthSession) :
  signInUserSession (this w) = Some s →
  let a := this w in
  ∃ w' : World,
    getFQDNSignIn w
    = (w', Normal
        ("https://" +:+ appWebDomain a +:+ "/oauth2/authorize"
         +:+ "?redirect_uri=" +:+ encodeURIComponent (redirectUriSignIn a)
         +:+ "&response_type=" +:+ responseType a
         +:+ "&client_id=" +:+ clientId a
         +:+ "&state=" +:+ to_String (state (this w'))
         +:+ "&scope="
         +:+ encodeURIComponent (join " " (getScopes (tokenScopes s)))
         +:+ (if truthy (identityProvider a)
              then "&identity_provider=" +:+ to_String (identityProvider a)
              else "")
         +:+ (if truthy (getUserContextData a)
              then "&userContextData=" +:+ to_String (getUserContextData a)
              else "")))
    ∧ this w' = with_state (state (this w')) a.
Proof.
  intros Hs a. eexists. split; [by apply getFQDNSignIn_run|].
  unfold with_fresh_state. fold a.
  destruct (nullish (state a)); [reflexivity|]. fold a. by destruct a.
Qed.

(** C6. [getFQDNSignIn] draws and stores a random state only when none is
    set: with a state set, the call stores nothing, draws nothing and puts
    that state in the URL; with none set, the state is made of the next
    [STATELENGTH] draws and stored.  Either way a second call right after
    the first finds the stored state, returns the same URL and draws
    nothing. *)
Theorem getFQDNSignIn_state_reused
  `{Collaborators} (w : World) (s : CognitoAuthSession) :
  signInUserSession (this w) = Some s →
  ∃ (w1 : World) (st : string),
    getFQDNSignIn w = (w1, Normal (sign_in_url (this w) s st))
    ∧ state (this w1) = str st
    ∧ (∀ st0, state (this w) = str st0 → w1 = w ∧ st = st0)
    ∧ (nullish (state (this w)) = true →
       st = random_string STATELENGTH STATEORIGINSTRING "" (draws w)
       ∧ draws w1 = (draws w + STATELENGTH)%nat)
    ∧ getFQDNSignIn w1 = (w1, Normal (sign_in_url (this w) s st)).
Proof.
  intros Hs.
  assert (∃ st, state (this (with_fresh_state w)) = str st) as [st Hst].
  { unfold with_fresh_state. destruct (state (this w)) eqn:E; cbn; eauto. }
  assert (signInUserSession (this (with_fresh_state w)) = Some s) as Hs1.
  { unfold with_fresh_state. by destruct (nullish (state (this w))). }
  assert (with_fresh_state (with_fresh_state w) = with_fresh_state w) as Hidem.
  { unfold with_fresh_state at 1. by rewrite Hst. }
  exists (with_fresh_state w), st. split_and!.
  - rewrite (getFQDNSignIn_run w s Hs). by rewrite Hst.
  - done.
  - intros st0 E. unfold with_fresh_state in Hst |- *. rewrite E in Hst |- *.
    cbn in *. split; [done|congruence].
  - intros Hn. unfold with_fresh_state in Hst |- *. rewrite Hn in Hst |- *.
    cbn in *. split; [congruence|done].
  - rewrite (getFQDNSignIn_run _ s Hs1), Hidem, Hst. cbn.
    do 2 f_equal. unfold with_fresh_state.
    by destruct (nullish (state (this w))).
Qed.

(** ** Refresh under the code flow *)

(** C4. Under the code flow, when the token endpoint answers without an
    [error] field, [refreshSession] replaces the id token and the access
    token of the held session by those of the answer (each only if the
    answer has it) and nothing else of the session: refresh token, scopes and
    state stay.  The session is then saved to the cache under the subject of
    its access token, reported to the handler if one is registered, and
    returned.  One request went to the token endpoint. *)
Theorem refreshSession_code_replaces_tokens
  `{Collaborators} (w : World) (tok : jstr) (s : CognitoAuthSession)
    (fields : gmap string jstr) :
  responseType (this w) = CODE →
  signInUserSession (this w) = Some s →
  token_endpoint (refresh_request (this w) tok) = NetResolve fields →
  fields !! ERROR = None →
  ∃ (w' : World) (s' : CognitoAuthSession),
    refreshSession tok w = (w', Normal (Some (Fulfilled (Some s'))))
    ∧ signInUserSession (this w') = Some s'
    ∧ idToken s' = (if has fields IDTOKEN
                    then new_CognitoToken (get fields IDTOKEN) else idToken s)
    ∧ accessToken s' = (if has fields ACCESSTOKEN
                        then new_CognitoToken (get fields ACCESSTOKEN)
                        else accessToken s)
    ∧ refreshToken s' = refreshToken s
    ∧ tokenScopes s' = tokenScopes s
    ∧ sessionState s' = sessionState s
    ∧ storage (this w') = saved (this w) s'
    ∧ username (this w') = getUsername (accessToken s')
    ∧ log w'
      = log w ++ PostRequest (refresh_request (this w) tok)
                 :: (if userhandler (this w) then [OnSuccess (Some s')] else []).
Proof.
  destruct w as [a l c d]. intros Ht Hs Hnet Herr. cbn [this log] in *.
  unfold refresh_request in *.
  unfold refreshSession, makePostCode, makePOSTRequest. run.
  rewrite Ht. run. rewrite Hnet. unfold then_, catch_, has. rewrite Herr. run.
  destruct (bool_decide (is_Some (fields !! IDTOKEN)));
    destruct (bool_decide (is_Some (fields !! ACCESSTOKEN)));
    run; rewrite ?Hs; run;
    (erewrite cacheTokensScopes_run by (cbn; first [reflexivity | exact Hs]));
    run; destruct (userhandler a); run; rewrite ?Hs;
    eexists _, _; (split; [reflexivity|]); cbn;
    rewrite <- ?app_assoc; split_and!; first [reflexivity | exact Hs].
Qed.

(** ** Callback responses that carry an error *)

Section ErrorResponses.
Context `{Collaborators}.

(** [resolveCognitoAuthSession] throws before it touches anything. *)
Lemma resolveCognitoAuthSession_error (map : gmap string jstr) (w : World) :
  has map ERROR = true →
  resolveCognitoAuthSession map w = (w, Throw (ErrorObj PARSETYPEERROR)).
Proof. intros He. unfold resolveCognitoAuthSession. by rewrite He. Qed.

(** Implicit flow: the error of the fragment reaches the handler, or rejects
    the promise; session and cache are as before. *)
Lemma parseCognitoWebResponse_implicit_error (resp : string) (w : World) :
  responseType (this w) = TOKEN →
  has (getQueryParameters resp QUERYPARAMETERREGEX1) ERROR = true →
  parseCognitoWebResponse resp w
  = if userhandler (this w)
    then (logged [OnFailure (ErrorObj PARSETYPEERROR)] w,
          Normal (Fulfilled None))
    else (w, Normal (Rejected (ErrorObj PARSETYPEERROR))).
Proof.
  destruct w as [a l c d]. cbn. intros Ht He.
  unfold parseCognitoWebResponse, parseCognitoToken. run. rewrite Ht. run.
  unfold then_, catch_. run. rewrite resolveCognitoAuthSession_error by done.
  run. by destruct (userhandler a).
Qed.

(** Code flow: the error of the query is thrown out of
    [parseCognitoWebResponse] itself, before any promise exists; the handler
    is not called. *)
Lemma parseCognitoWebResponse_code_error (resp : string) (w : World) :
  responseType (this w) ≠ TOKEN →
  has (getQueryParameters (hd "" (split "#" resp)) (SplitString "?")) ERROR
  = true →
  parseCognitoWebResponse resp w = (w, Throw (ErrorObj PARSETYPEERROR)).
Proof.
  destruct w as [a l c d]. cbn. intros Ht He.
  unfold parseCognitoWebResponse, parseCognitoCode. run.
  apply String.eqb_neq in Ht. rewrite Ht. run. rewrite He. reflexivity.
Qed.

End ErrorResponses.

(** C5, at a response the code mishandles.  Under the code flow with a
    failure handler registered, the callback [?error=access_denied] makes
    [parseCognitoWebResponse] throw the parse error synchronously: no promise
    is returned, rejected or not, and the handler is never called.  (The
    session and the cache are indeed left as they were.) *)
Theorem parseCognitoWebResponse_code_error_not_routed :
  responseType (this (Fixture.world false true)) = CODE
  ∧ userhandler (this (Fixture.world false true)) = true
  ∧ has (getQueryParameters "https://app.example.com/cb?error=access_denied"
           (SplitString "?")) ERROR = true
  ∧ parseCognitoWebResponse (H := Fixture.platform)
      "https://app.example.com/cb?error=access_denied"
      (Fixture.world false true)
    = (Fixture.world false true, Throw (ErrorObj PARSETYPEERROR))
  ∧ parseCognitoWebResponse (H := Fixture.platform)
      "https://app.example.com/cb#error=access_denied"
      Fixture.implicit_world
    = (logged [OnFailure (ErrorObj PARSETYPEERROR)] Fixture.implicit_world,
       Normal (Fulfilled None)).
Proof.
  split_and!.
  - reflexivity.
  - reflexivity.
  - reflexivity.
  - apply parseCognitoWebResponse_code_error; [discriminate|reflexivity].
  - by rewrite parseCognitoWebResponse_implicit_error.
Qed.

(** ** [getSession] *)

Section GetSession.
Context `{Collaborators}.

(** X4. What the scope check of [getSession] looks at: the scopes of the session
    held when the call starts, not those of the session it reloads.  When
    these differ from the configured ones, the reloaded session is emptied,
    given the configured scopes, and the sign-in URL is launched. *)
Lemma getSession_held_scopes_mismatch (w : World) (s : CognitoAuthSession) :
  signInUserSession (this w) = Some s →
  isValid (clock w) s = false →
  compareSets (Set_new (tokenScopesArray (this w)))
              (Set_new (getScopes (tokenScopes s))) = false →
  let a := this w in
  let reset :=
    {| idToken := new_CognitoToken undefined;
       accessToken := new_CognitoToken undefined;
       refreshToken := new_CognitoRefreshToken undefined;
       tokenScopes := new_CognitoTokenScopes (tokenScopesArray a);
       sessionState := sessionState (getCachedSession a) |} in
  getSession w
  = (logged
       (LaunchUri (sign_in_url a s (to_String (state (this (with_fresh_state w)))))
        :: (if userhandler a then [OnSuccess None] else []))
       (on_this (with_session (Some reset)) (with_fresh_state w)),
     Normal (Fulfilled None)).
Proof.
  intros Hs Hv Hc a reset. unfold getSession.
  unfold mbind at 1. unfold M_bind at 1. cbn [get_this].
  unfold mbind at 1. unfold M_bind at 1.
  assert (the_session w = (w, Normal s)) as ->.
  { unfold the_session. run. by rewrite Hs. }
  unfold mbind at 1. unfold M_bind at 1.
  rewrite (getFQDNSignIn_run w s Hs).
  assert (signInUserSession (this (with_fresh_state w)) = Some s) as Hs1.
  { unfold with_fresh_state. by destruct (nullish (state (this w))). }
  assert (clock (with_fresh_state w) = clock w) as Hc1.
  { unfold with_fresh_state. by destruct (nullish (state (this w))). }
  assert (userhandler (this (with_fresh_state w)) = userhandler a) as Hu.
  { unfold with_fresh_state. by destruct (nullish (state (this w))). }
  assert (tokenScopesArray (this (with_fresh_state w)) = tokenScopesArray a)
    as Ha.
  { unfold with_fresh_state. by destruct (nullish (state (this w))). }
  assert (getCachedSession (this (with_fresh_state w)) = getCachedSession a)
    as Hg.
  { unfold with_fresh_state. by destruct (nullish (state (this w))). }
  run. rewrite Hs1, Hc1, Hv. run. rewrite Hc. run.
  rewrite Hu, Ha, Hg. fold a.
  destruct (userhandler a); run; unfold logged, on_this; cbn;
    rewrite <- ?app_assoc; reflexivity.
Qed.

End GetSession.

(** C1, at an input the code mishandles.  The orchestrator is built with the
    scopes [openid] and [profile] over a cache that holds an expired session
    of [bob] granted [email].  The held session is not valid and the
    reloaded session's scopes differ from the configured ones, yet
    [getSession] neither resets the session nor launches the sign-in URL: it
    compares the configured scopes with those of the session held before the
    reload, goes on to refresh, and resolves with a session whose scopes are
    still [email]. *)
Theorem getSession_ignores_reloaded_scopes :
  (isValid (H := Fixture.platform) (clock Fixture.code_world)
     <$> signInUserSession (this Fixture.code_world)) = Some false
  ∧ tokenScopesArray (this Fixture.code_world) = ["openid"; "profile"]
  ∧ getScopes (tokenScopes (getCachedSession (this Fixture.code_world)))
    = ["email"]
  ∧ compareSets (Set_new (tokenScopesArray (this Fixture.code_world)))
      (Set_new (getScopes
                  (tokenScopes (getCachedSession (this Fixture.code_world)))))
    = false
  ∧ (getSession (H := Fixture.platform) Fixture.code_world).2
    = Normal (Fulfilled
        (signInUserSession
           (this (getSession (H := Fixture.platform) Fixture.code_world).1)))
  ∧ launches (log (getSession (H := Fixture.platform) Fixture.code_world).1)
    = []
  ∧ requests (log (getSession (H := Fixture.platform) Fixture.code_world).1)
    = [refresh_request (H := Fixture.platform) (this Fixture.code_world)
         (str "bob.refresh")]
  ∧ (getScopes ∘ tokenScopes
       <$> signInUserSession
             (this (getSession (H := Fixture.platform) Fixture.code_world).1))
    = Some ["email"]
  ∧ (idToken
       <$> signInUserSession
             (this (getSession (H := Fixture.platform) Fixture.code_world).1))
    = Some (new_CognitoToken (str "bob.id.live")).
Proof.
  split_and!; vm_compute; reflexivity.
Qed.

(** * The statements at the concrete platform *)

Section Instances.
Import Fixture.
Local Existing Instance platform.

Lemma compareSets_size_and_members_witness :
  compareSets (Set_new ["a"; "b"]) (Set_new ["b"; "a"])
  = compareSets (Set_new ["b"; "a"]) (Set_new ["b"; "a"]).
Proof.
  apply (proj1 (proj2 compareSets_size_and_members)).
  apply Permutation_swap.
Defined.

Lemma refreshSession_implicit_rejects_witness :
  responseType (this implicit_world) = TOKEN
  ∧ refreshSession (str "bob.refresh") implicit_world
    = (logged [OnFailure (ErrorValue REFRESHTYPEERROR)] implicit_world,
       Normal None)
  ∧ requests (log (refreshSession (str "bob.refresh") implicit_world).1)
    = requests (log implicit_world).
Proof.
  split; [reflexivity|].
  destruct (refreshSession_implicit_rejects implicit_world
              (str "bob.refresh")) as (E & R & _); [reflexivity|].
  split; [exact E | exact R].
Defined.

Lemma refreshSession_code_replaces_tokens_witness :
  responseType (this code_world) = CODE
  ∧ signInUserSession (this code_world) = Some held
  ∧ token_endpoint (refresh_request (this code_world) (str "bob.refresh"))
    = NetResolve fresh_tokens
  ∧ fresh_tokens !! ERROR = None
  ∧ ∃ (w' : World) (s' : CognitoAuthSession),
      refreshSession (str "bob.refresh") code_world
      = (w', Normal (Some (Fulfilled (Some s'))))
      ∧ idToken s' = new_CognitoToken (str "bob.id.live")
      ∧ accessToken s' = new_CognitoToken (str "bob.access.live")
      ∧ refreshToken s' = refreshToken held
      ∧ tokenScopes s' = tokenScopes held
      ∧ sessionState s' = sessionState held
      ∧ storage (this w') = saved (this code_world) s'.
Proof.
  split_and!; [reflexivity..|].
  destruct (refreshSession_code_replaces_tokens code_world
              (str "bob.refresh") held fresh_tokens)
    as (w' & s' & E & _ & Hi & Ha & Hr & Hsc & Hst & Hsto & _);
    [reflexivity..|].
  exists w', s'. split_and!; done.
Defined.

Lemma getFQDNSignIn_parameter_order_witness :
  signInUserSession (this code_world) = Some held
  ∧ ∃ w' : World,
      getFQDNSignIn (H := platform_with_collector) code_world
      = (w', Normal (sign_in_url (H := platform_with_collector)
                       (this code_world) held (to_String (state (this w')))))
      ∧ this w' = with_state (state (this w')) (this code_world).
Proof.
  split; [reflexivity|].
  apply (getFQDNSignIn_parameter_order (H := platform_with_collector)
           code_world held).
  reflexivity.
Defined.

Lemma getFQDNSignIn_state_reused_witness :
  signInUserSession (this code_world) = Some held
  ∧ nullish (state (this code_world)) = true
  ∧ ∃ (w1 : World) (st : string),
      getFQDNSignIn code_world
      = (w1, Normal (sign_in_url (this code_world) held st))
      ∧ state (this w1) = str st
      ∧ st = random_string STATELENGTH STATEORIGINSTRING "" (draws code_world)
      ∧ getFQDNSignIn w1 = (w1, Normal (sign_in_url (this code_world) held st)).
Proof.
  split; [reflexivity|]. split; [reflexivity|].
  destruct (getFQDNSignIn_state_reused code_world held)
    as (w1 & st & E1 & Est & _ & Hfresh & E2); [reflexivity|].
  exists w1, st. split_and!; [exact E1|exact Est| |exact E2].
  apply Hfresh. reflexivity.
Defined.

Lemma signOut_clears_current_user_witness :
  "eve" ≠ to_String (username (this code_world))
  ∧ ∃ w' : World,
      signOut code_world = (w', Normal ())
      ∧ signInUserSession (this w') = None
      ∧ storage (this w') !! userKey (this code_world) "bob" ".idToken" = None
      ∧ storage (this w') !! userKey (this code_world) "eve" ".idToken"
        = storage (this code_world) !! userKey (this code_world) "eve" ".idToken".
Proof.
  split; [vm_compute; discriminate|].
  destruct (signOut_clears_current_user code_world)
    as (w' & E & Hn & Hall & Hother & _).
  exists w'. split_and!; [exact E|exact Hn| |].
  - rewrite Hall. vm_compute. reflexivity.
  - apply Hother; [vm_compute; discriminate|].
    apply suffix_in_fields. tauto.
Defined.

Lemma cacheTokensScopes_username_of_access_token_witness :
  signInUserSession (this code_world) = Some held
  ∧ ∃ w' : World,
      cacheTokensScopes code_world = (w', Normal ())
      ∧ username (this w') = getUsername (accessToken held)
      ∧ storage (this w') !! lastUserKey (this code_world)
        = Some (getUsername (accessToken held))
      ∧ cacheTokensScopes (on_this (with_username (str "mallory")) code_world)
        = (w', Normal ()).
Proof.
  split; [reflexivity|].
  destruct (cacheTokensScopes_username_of_access_token code_world held)
    as (w' & E & Hu & _ & _ & _ & _ & Hl & _ & Hany); [reflexivity|].
  exists w'. split_and!; [exact E|exact Hu|exact Hl|apply Hany].
Defined.

Lemma constructor_requires_scopes_witness :
  ClientId options_without_scopes ≠ ""
  ∧ AppWebDomain options_without_scopes ≠ ""
  ∧ RedirectUriSignIn options_without_scopes ≠ ""
  ∧ RedirectUriSignOut options_without_scopes ≠ ""
  ∧ TokenScopesArray options_without_scopes = None
  ∧ constructor options_without_scopes true = Throw (ErrorObj SCOPETYPEERROR).
Proof.
  split_and!; [discriminate..|reflexivity|].
  apply (constructor_requires_scopes options_without_scopes true);
    [discriminate..|reflexivity].
Defined.

(** C8 as worded does not hold: after [signOut] no session is held at all,
    which is not the same as holding an empty session. *)
Lemma signOut_session_is_null_not_empty :
  (signOut code_world).2 = Normal ()
  ∧ signInUserSession (this (signOut code_world).1) = None
  ∧ signInUserSession (this (signOut code_world).1) ≠ Some empty_session.
Proof.
  split_and!; [vm_compute; reflexivity..|].
  vm_compute. discriminate.
Qed.

(** After [signOut], asking for the session again fails on the missing
    session object. *)
Example getSession_after_signOut :
  (getSession (signOut code_world).1).2 = Throw TypeError.
Proof. vm_compute. reflexivity. Qed.

(** The sign-in URL of the orchestrator just built. *)
Example getFQDNSignIn_example :
  (getFQDNSignIn (H := platform_with_collector) code_world).2
  = Normal
      ("https://auth.example.com/oauth2/authorize"
       +:+ "?redirect_uri=https%3A%2F%2Fapp.example.com%2Fcb"
       +:+ "&response_type=code&client_id=app1"
       +:+ "&state=AGMSYflrx3AGMSYflrx3AGMSYflrx3AG"
       +:+ "&scope=openid%20profile&userContextData=ctx-bob").
Proof. vm_compute. reflexivity. Qed.

(** The bytes [encodeURIComponent] escapes. *)
Example encodeURIComponent_example :
  encodeURIComponent "https://a.b/c d?x=1&y=(z)" 
  = "https%3A%2F%2Fa.b%2Fc%20d%3Fx%3D1%26y%3D(z)".
Proof. reflexivity. Qed.

End Instances.

(** * Further properties of the orchestrator *)

(** ** The branches of [getSession] *)

Section GetSessionBranches.
Context `{Collaborators}.

Lemma with_fresh_state_facts (w : World) :
  signInUserSession (this (with_fresh_state w)) = signInUserSession (this w)
  ∧ clock (with_fresh_state w) = clock w
  ∧ log (with_fresh_state w) = log w
  ∧ userhandler (this (with_fresh_state w)) = userhandler (this w)
  ∧ tokenScopesArray (this (with_fresh_state w)) = tokenScopesArray (this w)
  ∧ storage (this (with_fresh_state w)) = storage (this w)
  ∧ username (this (with_fresh_state w)) = username (this w)
  ∧ responseType (this (with_fresh_state w)) = responseType (this w)
  ∧ getCachedSession (this (with_fresh_state w)) = getCachedSession (this w)
  ∧ nullish (state (this (with_fresh_state w))) = false.
Proof.
  unfold with_fresh_state. destruct (nullish (state (this w))) eqn:E;
    split_and!; done.
Qed.

(** [getSession] up to its first test, for a held session. *)
Lemma getSession_start (w : World) (s : CognitoAuthSession) :
  signInUserSession (this w) = Some s →
  getSession w
  = (let tokenScopesInputSet := Set_new (tokenScopesArray (this w)) in
     let cachedScopesSet := Set_new (getScopes (tokenScopes s)) in
     let URL :=
       sign_in_url (this w) s (to_String (state (this (with_fresh_state w)))) in
     let now := clock w in
     let a := this (with_fresh_state w) in
     if isValid now s
     then
       (if userhandler a then emit (OnSuccess (Some s)) else mret ());;
       mret (Fulfilled (Some s))
     else
       modify_this (with_session (Some (getCachedSession a)));;
       s ← the_session;
       if negb (compareSets tokenScopesInputSet cachedScopesSet) then
         let tokenScopes := new_CognitoTokenScopes (tokenScopesArray a) in
         let idToken := new_CognitoToken undefined in
         let accessToken := new_CognitoToken undefined in
         let refreshToken := new_CognitoRefreshToken undefined in
         update_session (setTokenScopes tokenScopes);;
         update_session (setIdToken idToken);;
         update_session (setAccessToken accessToken);;
         update_session (setRefreshToken refreshToken);;
         launchUri URL;;
         (if userhandler a then emit (OnSuccess None) else mret ());;
         mret (Fulfilled None)
       else if isValid now s then
         (if userhandler a then emit (OnSuccess (Some s)) else mret ());;
         mret (Fulfilled (Some s))
       else if negb (truthy (getToken (refreshToken s))) then
         launchUri URL;;
         (if userhandler a then emit (OnSuccess None) else mret ());;
         mret (Fulfilled None)
       else
         r ← refreshSession (getToken (refreshToken s));
         match r with
         | None => mthrow TypeError
         | Some p =>
             then_ p (λ data,
               a ← get_this;
               (if userhandler a then emit (OnSuccess (signInUserSession a))
                else mret ());;
               mret (signInUserSession a))
         end) (with_fresh_state w).
Proof.
  intros Hs. unfold getSession.
  unfold mbind at 1. unfold M_bind at 1. cbn [get_this].
  unfold mbind at 1. unfold M_bind at 1.
  assert (the_session w = (w, Normal s)) as ->.
  { unfold the_session. run. by rewrite Hs. }
  unfold mbind at 1. unfold M_bind at 1.
  rewrite (getFQDNSignIn_run w s Hs).
  destruct (with_fresh_state_facts w) as (Hs1 & Hc1 & _).
  unfold mbind at 1. unfold M_bind at 1. cbn [get_clock].
  unfold mbind at 1. unfold M_bind at 1. cbn [get_this].
  rewrite Hs1, Hs, Hc1. cbv zeta. reflexivity.
Qed.

End GetSessionBranches.


(** X2. When the held session is not valid, its scopes are the configured
    ones and the cache holds a valid session, [getSession] replaces the held
    session by the cached one and resolves with it; nothing is sent or
    launched. *)
Theorem getSession_reloaded_valid
  `{Collaborators} (w : World) (s : CognitoAuthSession) :
  signInUserSession (this w) = Some s →
  isValid (clock w) s = false →
  compareSets (Set_new (tokenScopesArray (this w)))
              (Set_new (getScopes (tokenScopes s))) = true →
  isValid (clock w) (getCachedSession (this w)) = true →
  let cached := getCachedSession (this w) in
  ∃ w' : World,
    getSession w = (w', Normal (Fulfilled (Some cached)))
    ∧ this w' = with_session (Some cached) (this (with_fresh_state w))
    ∧ log w' = log w ++ (if userhandler (this w) then [OnSuccess (Some cached)]
                         else []).
Proof.
  intros Hs Hv Hc Hcv cached. subst cached.
  rewrite (getSession_start w s Hs). cbv zeta.
  rewrite Hv, Hc.
  destruct (with_fresh_state_facts w) as (_ & _ & Hl & Hu & _ & _ & _ & _ & Hg & _).
  rewrite Hu, Hg. run. rewrite Hcv.
  destruct (userhandler (this w)); run;
    (eexists; split; [reflexivity|]); cbn; rewrite Hl, ?app_nil_r; done.
Qed.

(** X3. When the held session is not valid, its scopes are the configured
    ones, and the cached session is neither valid nor has a refresh token,
    [getSession] keeps the cached session, launches the sign-in URL and
    resolves with [undefined] (after telling the handler so); nothing is
    sent to the token endpoint. *)
Theorem getSession_no_refresh_token
  `{Collaborators} (w : World) (s : CognitoAuthSession) :
  signInUserSession (this w) = Some s →
  isValid (clock w) s = false →
  compareSets (Set_new (tokenScopesArray (this w)))
              (Set_new (getScopes (tokenScopes s))) = true →
  isValid (clock w) (getCachedSession (this w)) = false →
  truthy (getToken (refreshToken (getCachedSession (this w)))) = false →
  let cached := getCachedSession (this w) in
  ∃ w' : World,
    getSession w = (w', Normal (Fulfilled None))
    ∧ this w' = with_session (Some cached) (this (with_fresh_state w))
    ∧ log w'
      = log w
        ++ LaunchUri (sign_in_url (this w) s
                        (to_String (state (this (with_fresh_state w)))))
           :: (if userhandler (this w) then [OnSuccess None] else []).
Proof.
  intros Hs Hv Hc Hcv Hr cached. subst cached.
  rewrite (getSession_start w s Hs). cbv zeta.
  rewrite Hv, Hc.
  destruct (with_fresh_state_facts w) as (_ & _ & Hl & Hu & _ & _ & _ & _ & Hg & _).
  rewrite Hu, Hg. run. rewrite Hcv, Hr.
  destruct (userhandler (this w)); run;
    (eexists; split; [reflexivity|]); cbn; rewrite Hl, <- ?app_assoc; done.
Qed.

(** X5. Under the implicit flow, when [getSession] comes to refreshing (held
    session not valid with the configured scopes, cached session not valid
    but with a refresh token), nothing is sent.  Without a handler the call
    returns a promise rejected with the refresh-type error.  With a handler
    registered the handler is told of the failure and the call then throws a
    [TypeError], because [refreshSession] returned [undefined] and not a
    promise. *)
Theorem getSession_refresh_under_implicit_flow
  `{Collaborators} (w : World) (s : CognitoAuthSession) :
  signInUserSession (this w) = Some s →
  isValid (clock w) s = false →
  compareSets (Set_new (tokenScopesArray (this w)))
              (Set_new (getScopes (tokenScopes s))) = true →
  isValid (clock w) (getCachedSession (this w)) = false →
  truthy (getToken (refreshToken (getCachedSession (this w)))) = true →
  responseType (this w) = TOKEN →
  ∃ w' : World,
    getSession w
    = (w', if userhandler (this w) then Throw TypeError
           else Normal (Rejected (ErrorValue REFRESHTYPEERROR)))
    ∧ this w'
      = with_session (Some (getCachedSession (this w)))
          (this (with_fresh_state w))
    ∧ log w'
      = log w ++ (if userhandler (this w)
                  then [OnFailure (ErrorValue REFRESHTYPEERROR)] else []).
Proof.
  intros Hs Hv Hc Hcv Hr Ht. rewrite (getSession_start w s Hs). cbv zeta.
  rewrite Hv, Hc.
  destruct (with_fresh_state_facts w)
    as (_ & _ & Hl & Hu & _ & _ & _ & Hrt & Hg & _).
  rewrite Hu, Hg. run. rewrite Hcv, Hr. run.
  unfold refreshSession. run. rewrite Hrt, Ht, Hu. run.
  destruct (userhandler (this w)); run;
    (eexists; split; [reflexivity|]); cbn; rewrite Hl, ?app_nil_r; done.
Qed.

(** ** Refreshing *)

Section Refreshing.
Context `{Collaborators}.

Lemma refreshSession_code_success_run (w : World) (tok : jstr)
    (s : CognitoAuthSession) (fields : gmap string jstr) :
  responseType (this w) = CODE →
  signInUserSession (this w) = Some s →
  token_endpoint (refresh_request (this w) tok) = NetResolve fields →
  fields !! ERROR = None →
  let s' := refreshed fields s in
  refreshSession tok w
  = (logged (PostRequest (refresh_request (this w) tok)
             :: (if userhandler (this w) then [OnSuccess (Some s')] else []))
       (on_this (λ a, with_storage (saved a s')
                        (with_username (getUsername (accessToken s'))
                           (with_session (Some s') a))) w),
     Normal (Some (Fulfilled (Some s')))).
Proof.
  destruct w as [a l c d]. intros Ht Hs Hnet Herr. cbn [this log] in *.
  unfold refresh_request in *.
  unfold refreshSession, makePostCode, makePOSTRequest. run.
  rewrite Ht. run. rewrite Hnet. unfold then_, catch_, refreshed.
  unfold has at 1. rewrite Herr. run.
  destruct (has fields IDTOKEN); destruct (has fields ACCESSTOKEN);
    run; rewrite ?Hs; run;
    (erewrite cacheTokensScopes_run by (cbn; first [reflexivity | exact Hs]));
    run; destruct (userhandler a); run; rewrite ?Hs;
    unfold logged, on_this; cbn; rewrite <- ?app_assoc;
    destruct a; cbn in Hs; subst; reflexivity.
Qed.

Lemma with_fresh_state_this (w : World) :
  this (with_fresh_state w)
  = with_state (state (this (with_fresh_state w))) (this w).
Proof.
  unfold with_fresh_state. destruct (nullish (state (this w))); [done|].
  by destruct (this w).
Qed.

Lemma with_fresh_state_logged (evs : list Event) (w : World) :
  with_fresh_state (logged evs w) = logged evs (with_fresh_state w).
Proof.
  unfold with_fresh_state. cbn. by destruct (nullish (state (this w))).
Qed.

End Refreshing.

(** X6. Under the code flow, when [getSession] comes to refreshing and the
    token endpoint answers without an [error] field, the call resolves with
    the cached session carrying the new id and access tokens, and that
    session is saved.  One request is sent, nothing is launched, and a
    registered handler is told of the success twice: once by
    [refreshSession] and once more by [getSession]. *)
Theorem getSession_refresh_succeeds
  `{Collaborators} (w : World) (s : CognitoAuthSession)
    (fields : gmap string jstr) :
  signInUserSession (this w) = Some s →
  isValid (clock w) s = false →
  compareSets (Set_new (tokenScopesArray (this w)))
              (Set_new (getScopes (tokenScopes s))) = true →
  isValid (clock w) (getCachedSession (this w)) = false →
  truthy (getToken (refreshToken (getCachedSession (this w)))) = true →
  responseType (this w) = CODE →
  token_endpoint
    (refresh_request (this w)
       (getToken (refreshToken (getCachedSession (this w)))))
  = NetResolve fields →
  fields !! ERROR = None →
  let s' := refreshed fields (getCachedSession (this w)) in
  ∃ w' : World,
    getSession w = (w', Normal (Fulfilled (Some s')))
    ∧ signInUserSession (this w') = Some s'
    ∧ storage (this w') = saved (this w) s'
    ∧ log w'
      = log w
        ++ PostRequest
             (refresh_request (this w)
                (getToken (refreshToken (getCachedSession (this w)))))
           :: (if userhandler (this w)
               then [OnSuccess (Some s'); OnSuccess (Some s')] else []).
Proof.
  intros Hs Hv Hc Hcv Hr Ht Hnet Herr s'. subst s'.
  rewrite (getSession_start w s Hs). cbv zeta. rewrite Hv, Hc.
  destruct (with_fresh_state_facts w)
    as (_ & _ & Hl & Hu & _ & Hsto & _ & Hrt & Hg & _).
  rewrite Hu, Hg. run. rewrite Hcv, Hr. run.
  pose proof (with_fresh_state_this w) as Hthis.
  set (v := state (this (with_fresh_state w))) in *.
  erewrite (refreshSession_code_success_run _ _ (getCachedSession (this w)) fields);
    [ | cbn; by rewrite Hrt | reflexivity
      | cbn; rewrite Hthis; exact Hnet | exact Herr ].
  destruct (userhandler (this w)); run; rewrite ?Hu; run;
    (eexists; split; [reflexivity|]); cbn;
    rewrite Hl, Hthis; rewrite <- ?app_assoc; done.
Qed.

(** X7. Under the code flow, when the token endpoint answers a refresh with
    an [error] field, [refreshSession] launches the sign-in URL and fails
    with the refresh-type error: to the handler when one is registered (the
    promise then resolves with [undefined]), as a rejection otherwise.  The
    held session and the cache are left as they were. *)
Theorem refreshSession_error_answer
  `{Collaborators} (w : World) (tok : jstr) (s : CognitoAuthSession)
    (fields : gmap string jstr) :
  responseType (this w) = CODE →
  signInUserSession (this w) = Some s →
  token_endpoint (refresh_request (this w) tok) = NetResolve fields →
  has fields ERROR = true →
  ∃ w' : World,
    refreshSession tok w
    = (w', Normal (Some (if userhandler (this w) then Fulfilled None
                         else Rejected (ErrorObj REFRESHTYPEERROR))))
    ∧ this w' = this (with_fresh_state w)
    ∧ signInUserSession (this w') = Some s
    ∧ storage (this w') = storage (this w)
    ∧ log w'
      = log w
        ++ [PostRequest (refresh_request (this w) tok);
            LaunchUri (sign_in_url (this w) s
                         (to_String (state (this (with_fresh_state w)))))]
        ++ (if userhandler (this w)
            then [OnFailure (ErrorObj REFRESHTYPEERROR)] else []).
Proof.
  intros Ht Hs Hnet Herr.
  destruct (with_fresh_state_facts w) as (Hs1 & _ & Hl & Hu & _ & Hsto & _).
  unfold refreshSession, makePostCode, makePOSTRequest. run.
  rewrite Ht. run. unfold refresh_request in Hnet. rewrite Hnet.
  unfold then_, catch_. rewrite Herr. run.
  change {| this := this w; log := log w ++ [PostRequest ?r];
            clock := clock w; draws := draws w |}
    with (logged [PostRequest r] w).
  erewrite getFQDNSignIn_run by (cbn; exact Hs).
  rewrite with_fresh_state_logged. cbn [this logged]. run. rewrite Hu.
  destruct (userhandler (this w)); run;
    (eexists; split; [reflexivity|]); cbn;
    rewrite Hs1, Hs, Hsto, Hl, <- ?app_assoc; done.
Qed.

(** X8. When the request of a refresh fails in transport, [refreshSession]
    passes the response text on unchanged: to the handler when one is
    registered (the promise then resolves with [undefined]), as a rejection
    otherwise.  Nothing is launched and the orchestrator is left as it
    was. *)
Theorem refreshSession_transport_failure
  `{Collaborators} (w : World) (tok : jstr) (responseText : string) :
  responseType (this w) = CODE →
  token_endpoint (refresh_request (this w) tok) = NetReject responseText →
  refreshSession tok w
  = (logged (PostRequest (refresh_request (this w) tok)
             :: (if userhandler (this w)
                 then [OnFailure (TransportError responseText)] else []))
            w,
     Normal (Some (if userhandler (this w) then Fulfilled None
                   else Rejected (TransportError responseText)))).
Proof.
  destruct w as [a l c d]. intros Ht Hnet. cbn [this] in *.
  unfold refreshSession, makePostCode, makePOSTRequest. run.
  rewrite Ht. run. unfold refresh_request in *. rewrite Hnet.
  unfold then_, catch_. run.
  destruct (userhandler a); run; unfold logged; cbn;
    rewrite <- ?app_assoc; reflexivity.
Qed.

(** ** Callback responses *)

Section Callbacks.
Context `{Collaborators}.


End Callbacks.


(** X10. Under the implicit flow, a callback whose fragment holds an
    [error] changes nothing of the orchestrator: the parse error goes to the
    handler when one is registered (the promise then resolves with
    [undefined]) and rejects the promise otherwise. *)
Theorem parseCognitoWebResponse_implicit_error_routed
  `{Collaborators} (resp : string) (w : World) :
  responseType (this w) = TOKEN →
  has (getQueryParameters resp QUERYPARAMETERREGEX1) ERROR = true →
  ∃ w' : World,
    parseCognitoWebResponse resp w
    = (w', Normal (if userhandler (this w) then Fulfilled None
                   else Rejected (ErrorObj PARSETYPEERROR)))
    ∧ this w' = this w
    ∧ log w' = log w ++ (if userhandler (this w)
                         then [OnFailure (ErrorObj PARSETYPEERROR)] else []).
Proof.
  intros Ht He. rewrite parseCognitoWebResponse_implicit_error by done.
  destruct (userhandler (this w)); eexists; (split; [reflexivity|]); cbn;
    rewrite ?app_nil_r; done.
Qed.

(** X11. Under the code flow, a callback whose query holds an [error] makes
    [parseCognitoWebResponse] throw the parse error itself: no promise comes
    back, the handler is not called, nothing is sent, and the orchestrator
    is left exactly as it was. *)
Theorem parseCognitoWebResponse_code_error_thrown
  `{Collaborators} (resp : string) (w : World) :
  responseType (this w) ≠ TOKEN →
  has (getQueryParameters (hd "" (split "#" resp)) (SplitString "?")) ERROR
  = true →
  parseCognitoWebResponse resp w = (w, Throw (ErrorObj PARSETYPEERROR)).
Proof. apply parseCognitoWebResponse_code_error. Qed.

(** X12. Under the code flow, a callback whose query holds neither [error]
    nor [code] makes [parseCognitoWebResponse] throw a [TypeError]:
    [parseCognitoCode] returns nothing to chain on.  By then the state of
    the held session has been overwritten with the [state] of the query, or
    with [null] when there is none; nothing is sent. *)
Theorem parseCognitoWebResponse_code_missing
  `{Collaborators} (resp : string) (w : World) (s : CognitoAuthSession) :
  let map := getQueryParameters (hd "" (split "#" resp)) (SplitString "?") in
  responseType (this w) ≠ TOKEN →
  signInUserSession (this w) = Some s →
  has map ERROR = false →
  has map CODE = false →
  parseCognitoWebResponse resp w
  = (on_this
       (with_session
          (Some (setState (if has map STATE then get map STATE else null) s)))
       w,
     Throw TypeError).
Proof.
  intros map Ht Hs He Hc. destruct w as [a l c d]. cbn [this] in *.
  unfold parseCognitoWebResponse, parseCognitoCode. run.
  apply String.eqb_neq in Ht. rewrite Ht. run. fold map. rewrite He.
  destruct (has map STATE); run; rewrite Hs; run; fold map; rewrite Hc;
    reflexivity.
Qed.


(** ** The cache *)

Section Cache.
Context `{Collaborators}.

Lemma split_no_sep (c : ascii) (x : string) :
  c ∉ String.list_ascii_of_string x → split c x = [x].
Proof.
  induction x as [|d x IH]; [done|]. cbn. rewrite not_elem_of_cons.
  intros [Hd Hx]. destruct (Ascii.eqb_spec d c) as [->|_]; [done|].
  by rewrite IH.
Qed.

Lemma split_app_sep (c : ascii) (x t : string) :
  c ∉ String.list_ascii_of_string x →
  split c (x +:+ String c t) = x :: split c t.
Proof.
  induction x as [|d x IH].
  - intros _. rewrite string_app_nil_l. cbn. by rewrite Ascii.eqb_refl.
  - cbn. rewrite not_elem_of_cons. intros [Hd Hx].
    rewrite string_app_cons. cbn.
    destruct (Ascii.eqb_spec d c) as [->|_]; [done|]. by rewrite IH.
Qed.

(** Joining storable scopes by spaces and splitting at spaces gives the
    scopes back. *)
Lemma split_join_scopes (scopes : list string) :
  Forall storable_scope scopes → scopes ≠ [] →
  split " " (join " " scopes) = scopes.
Proof.
  induction scopes as [|x [|y rest] IH]; intros Hall Hne; [done|..].
  - cbn. apply split_no_sep. by inversion Hall as [|?? [_ ?] _].
  - change (join " " (x :: y :: rest))
      with (x +:+ " " +:+ join " " (y :: rest)).
    change (" " +:+ join " " (y :: rest))
      with (String " " (join " " (y :: rest))).
    inversion Hall as [|?? [_ Hx] Hrest]; subst.
    rewrite split_app_sep by done. f_equal. by apply IH.
Qed.

Lemma join_scopes_truthy (scopes : list string) :
  Forall storable_scope scopes → scopes ≠ [] →
  truthy (str (join " " scopes)) = true.
Proof.
  intros Hall Hne. cbn. apply negb_true_iff, String.eqb_neq.
  destruct scopes as [|x [|y rest]]; [done|..].
  - cbn. by inversion Hall as [|?? [? _] _].
  - change (join " " (x :: y :: rest))
      with (x +:+ " " +:+ join " " (y :: rest)).
    intros E. apply (f_equal String.length) in E.
    rewrite !string_length_app in E. cbn in E. lia.
Qed.

Lemma scopes_read_back (scopes : list string) :
  Forall storable_scope scopes →
  (if truthy (str (join " " scopes))
   then split " " (to_String (str (join " " scopes))) else [])
  = scopes.
Proof.
  intros Hall. destruct scopes as [|x rest]; [done|].
  rewrite join_scopes_truthy by done. by apply split_join_scopes.
Qed.

(** The cached session of a user, by the keys of the user. *)
Lemma getCachedSession_of_user (a : CognitoAuth) (u : string) :
  username a = str u → u ≠ "" →
  getCachedSession a
  = {| idToken := new_CognitoToken (getItem (storage a) (userKey a u ".idToken"));
       accessToken :=
         new_CognitoToken (getItem (storage a) (userKey a u ".accessToken"));
       refreshToken :=
         new_CognitoRefreshToken
           (getItem (storage a) (userKey a u ".refreshToken"));
       tokenScopes :=
         new_CognitoTokenScopes
           (let scopesString :=
              getItem (storage a) (userKey a u ".tokenScopesString") in
            if truthy scopesString then split " " (to_String scopesString)
            else []);
       sessionState := null |}.
Proof.
  intros Hu Hne. unfold getCachedSession, keyPrefix, userKey. rewrite Hu. cbn.
  apply String.eqb_neq in Hne. rewrite Hne. cbn.
  rewrite !string_app_assoc. reflexivity.
Qed.

End Cache.

(** X14. What [cacheTokensScopes] saves, [getCachedSession] reads back: when
    the access token of the held session names a user and the scopes are
    storable (none empty, none with a space), the cached session read
    afterwards has the raw tokens and the scopes of the saved one, and the
    last user read from the cache is that user. *)
Theorem cacheTokensScopes_getCachedSession_round_trip
  `{Collaborators} (w : World) (s : CognitoAuthSession) (u : string) :
  signInUserSession (this w) = Some s →
  getUsername (accessToken s) = str u →
  u ≠ "" →
  Forall storable_scope (getScopes (tokenScopes s)) →
  ∃ w' : World,
    cacheTokensScopes w = (w', Normal ())
    ∧ getCachedSession (this w')
      = {| idToken := new_CognitoToken (getJwtToken (idToken s));
           accessToken := new_CognitoToken (getJwtToken (accessToken s));
           refreshToken := new_CognitoRefreshToken (getToken (refreshToken s));
           tokenScopes := tokenScopes s;
           sessionState := null |}
    ∧ getLastUser (this w') = str u
    ∧ getCurrentUser (this w') = str u.
Proof.
  intros Hs Hu Hne Hsc. rewrite (cacheTokensScopes_run w s Hs).
  eexists. split; [reflexivity|]. cbn [this on_this]. rewrite Hu.
  set (a' := with_storage _ _).
  assert (storage a' = saved (this w) s) as Hsto by done.
  assert (∀ suffix, userKey a' u suffix = userKey (this w) u suffix) as Hk
    by done.
  assert (lastUserKey a' = lastUserKey (this w)) as Hlk by done.
  split_and!.
  - rewrite (getCachedSession_of_user a' u) by done.
    rewrite !Hk, Hsto. unfold getItem.
    assert (to_String (getUsername (accessToken s)) = u) as Hts
      by (by rewrite Hu).
    unfold saved. rewrite Hu. cbn [to_String].
    repeat first
      [ rewrite lookup_insert_eq | rewrite lookup_insert_ne by key_neq ].
    cbn [default]. unfold id. rewrite scopes_read_back by done.
    by destruct (tokenScopes s).
  - unfold getLastUser, keyPrefix. rewrite string_app_assoc.
    fold (lastUserKey a'). rewrite Hlk, Hsto.
    unfold getItem, saved. rewrite Hu. cbn [to_String].
    repeat first
      [ rewrite lookup_insert_eq | rewrite lookup_insert_ne by key_neq ].
    cbn. apply String.eqb_neq in Hne. by rewrite Hne.
  - unfold getCurrentUser. fold (lastUserKey a'). rewrite Hlk, Hsto.
    unfold getItem, saved. rewrite Hu. cbn [to_String].
    repeat first
      [ rewrite lookup_insert_eq | rewrite lookup_insert_ne by key_neq ].
    reflexivity.
Qed.

Lemma clearCachedTokensScopes_run `{Collaborators} (w : World) :
  clearCachedTokensScopes w
  = (on_this (λ a,
       let u := to_String (username a) in
       with_storage
         (foldr delete (storage a)
            [userKey a u ".tokenScopesString"; lastUserKey a;
             userKey a u ".refreshToken"; userKey a u ".accessToken";
             userKey a u ".idToken"]) a) w,
     Normal ()).
Proof. destruct w as [a l c d]. unfold clearCachedTokensScopes. by run. Qed.

Lemma lookup_cleared (a : CognitoAuth) (u k : string) :
  foldr delete (storage a)
    [userKey a u ".tokenScopesString"; lastUserKey a;
     userKey a u ".refreshToken"; userKey a u ".accessToken";
     userKey a u ".idToken"] !! k
  = if bool_decide (k ∈ userKeys a u) then None else storage a !! k.
Proof.
  rewrite lookup_foldr_delete.
  apply (f_equal (λ b : bool, if b then None else storage a !! k)).
  apply bool_decide_ext. unfold userKeys, fieldSuffixes. cbn.
  rewrite !elem_of_cons, !elem_of_nil. tauto.
Qed.

(** X15. Saving the session and then clearing the cache leaves no trace of
    the user: all five keys of the subject of the access token are gone and
    every other key reads as before the save; if none of the five keys was
    stored before, the storage is exactly what it was. *)
Theorem cacheTokensScopes_then_clear
  `{Collaborators} (w : World) (s : CognitoAuthSession) :
  signInUserSession (this w) = Some s →
  let a := this w in
  let u := to_String (getUsername (accessToken s)) in
  ∃ w1 w2 : World,
    cacheTokensScopes w = (w1, Normal ())
    ∧ clearCachedTokensScopes w1 = (w2, Normal ())
    ∧ (∀ k, storage (this w2) !! k
            = if bool_decide (k ∈ userKeys a u) then None else storage a !! k)
    ∧ ((∀ k, k ∈ userKeys a u → storage a !! k = None) →
       storage (this w2) = storage a).
Proof.
  intros Hs a u. rewrite (cacheTokensScopes_run w s Hs).
  eexists _, _. split; [reflexivity|].
  rewrite clearCachedTokensScopes_run. split; [reflexivity|].
  cbn [this on_this storage with_storage username with_username].
  fold a u.
  set (a' := with_storage _ _).
  assert (∀ k, foldr delete (saved a s)
                 [userKey a' u ".tokenScopesString"; lastUserKey a';
                  userKey a' u ".refreshToken"; userKey a' u ".accessToken";
                  userKey a' u ".idToken"] !! k
               = if bool_decide (k ∈ userKeys a u) then None
                 else storage a !! k) as Hl.
  { intros k.
    change (saved a s) with (storage a').
    rewrite (lookup_cleared a' u k).
    change (userKeys a' u) with (userKeys a u).
    case_bool_decide as Hk; [done|]. by apply saved_frame. }
  split; [exact Hl|].
  intros Hfree. apply map_eq. intros k. rewrite Hl.
  case_bool_decide as Hk; [|done]. symmetry. by apply Hfree.
Qed.

(** X16. After [signOut] nothing of the user is left to find: the cached
    session read for the orchestrator is the empty session, no last user is
    stored, and [isUserSignedIn] answers no. *)
Theorem signOut_leaves_nobody_signed_in `{Collaborators} (w : World) :
  ∃ w' : World,
    signOut w = (w', Normal ())
    ∧ getCachedSession (this w') = empty_session
    ∧ getLastUser (this w') = undefined
    ∧ getCurrentUser (this w') = null
    ∧ isUserSignedIn w' = false.
Proof.
  rewrite signOut_run. eexists. split; [reflexivity|].
  cbn [this logged on_this].
  set (a := this w). set (u := to_String (username a)).
  set (a' := with_storage _ _).
  assert (∀ k, k ∈ userKeys a u → getItem (storage a') k = null) as Hgone.
  { intros k Hk. unfold getItem. subst a'. cbn [storage with_storage].
    change (foldr delete _ _ !! k) with
      (foldr delete (storage a)
         [userKey a u ".tokenScopesString"; lastUserKey a;
          userKey a u ".refreshToken"; userKey a u ".accessToken";
          userKey a u ".idToken"] !! k).
    rewrite (lookup_cleared a u k).
    by rewrite bool_decide_eq_true_2. }
  assert (getCachedSession a' = empty_session) as Hempty.
  { destruct (username a) as [| |v] eqn:Eu; [by unfold getCachedSession; cbn; rewrite Eu..|].
    destruct (String.eqb_spec v "") as [->|Hv].
    { unfold getCachedSession. cbn. by rewrite Eu. }
    rewrite (getCachedSession_of_user a' v) by done.
    assert (v = u) as Hvu by (unfold u; rewrite ?Eu; reflexivity).
    rewrite Hvu.
    change (userKey a' u) with (userKey a u).
    rewrite !Hgone by (unfold userKeys, fieldSuffixes; cbn;
                        rewrite !elem_of_cons; tauto).
    reflexivity. }
  assert (getItem (storage a') (lastUserKey a) = null) as Hlast.
  { apply Hgone. unfold userKeys. by left. }
  split_and!.
  - exact Hempty.
  - unfold getLastUser, keyPrefix. rewrite string_app_assoc.
    change ("CognitoIdentityServiceProvider." +:+ clientId a' +:+ ".LastAuthUser")
      with (lastUserKey a).
    by rewrite Hlast.
  - unfold getCurrentUser.
    change ("CognitoIdentityServiceProvider." +:+ clientId a' +:+ ".LastAuthUser")
      with (lastUserKey a).
    exact Hlast.
  - unfold isUserSignedIn. cbn [this logged on_this clock].
    change (getCachedSession _) with (getCachedSession a').
    rewrite Hempty. reflexivity.
Qed.

(** ** Construction, again *)

Lemma compareSets_refl (arr : list string) :
  compareSets (Set_new arr) (Set_new arr) = true.
Proof.
  destruct (Set_new_spec arr) as [N _]. by apply compareSets_true.
Qed.

(** X17. Construction checks the required fields first: when the client
    id, the web domain or one of the two redirect URIs is empty, it throws
    the parameter error, whatever the scopes are. *)
Theorem constructor_requires_parameters
  `{Collaborators} (data : CognitoAuthOptions) (implicitFlow : bool) :
  ClientId data = "" ∨ AppWebDomain data = ""
  ∨ RedirectUriSignIn data = "" ∨ RedirectUriSignOut data = "" →
  constructor data implicitFlow = Throw (ErrorObj PARAMETERERROR).
Proof.
  intros Hm. unfold constructor, truthy.
  destruct Hm as [E|[E|[E|E]]]; rewrite E; cbn; rewrite ?orb_true_r;
    reflexivity.
Qed.

(** X18. A constructed orchestrator holds the session cached for the last
    signed-in user of its storage, with the scopes replaced by the
    configured ones.  So whatever scopes the cache holds, the scope
    comparison of the first [getSession] finds the held scopes equal to the
    configured ones.  No state is set, no handler is registered, and the
    response type follows the flag. *)
Theorem constructor_holds_configured_scopes
  `{Collaborators} (data : CognitoAuthOptions) (implicitFlow : bool)
    (scopes : list string) :
  ClientId data ≠ "" → AppWebDomain data ≠ "" →
  RedirectUriSignIn data ≠ "" → RedirectUriSignOut data ≠ "" →
  TokenScopesArray data = Some scopes →
  ∃ a : CognitoAuth,
    constructor data implicitFlow = Normal a
    ∧ tokenScopesArray a = scopes
    ∧ storage a = default default_storage (Storage data)
    ∧ username a = getLastUser a
    ∧ signInUserSession a
      = Some (setTokenScopes (new_CognitoTokenScopes scopes)
                (getCachedSession a))
    ∧ compareSets (Set_new (tokenScopesArray a)) (Set_new scopes) = true
    ∧ state a = undefined
    ∧ userhandler a = false
    ∧ responseType a = (if implicitFlow then TOKEN else CODE).
Proof.
  intros H1 H2 H3 H4 Hsc. unfold constructor, truthy.
  apply String.eqb_neq in H1, H2, H3, H4.
  rewrite H1, H2, H3, H4, Hsc. cbn.
  eexists. split; [reflexivity|]. cbn.
  split_and!; try reflexivity. apply compareSets_refl.
Qed.

(** X19. The collection flag of a constructed orchestrator is the one given
    and is off when none is given.  With the flag off no context data is
    collected, even where the collector is loaded, and the sign-in URL ends
    without a [userContextData] parameter. *)
Theorem constructor_collection_flag_defaults_off
  `{Collaborators} (data : CognitoAuthOptions) (implicitFlow : bool)
    (a : CognitoAuth) :
  constructor data implicitFlow = Normal a →
  advancedSecurityDataCollectionFlag a
  = default false (AdvancedSecurityDataCollectionFlag data)
  ∧ (AdvancedSecurityDataCollectionFlag data = None →
     getUserContextData a = undefined
     ∧ ∀ s st,
         sign_in_url a s st
         = "https://" +:+ appWebDomain a +:+ "/oauth2/authorize"
           +:+ "?redirect_uri=" +:+ encodeURIComponent (redirectUriSignIn a)
           +:+ "&response_type=" +:+ responseType a
           +:+ "&client_id=" +:+ clientId a
           +:+ "&state=" +:+ st
           +:+ "&scope="
           +:+ encodeURIComponent (join " " (getScopes (tokenScopes s)))
           +:+ (if truthy (identityProvider a)
                then "&identity_provider=" +:+ to_String (identityProvider a)
                else "")).
Proof.
  unfold constructor.
  destruct (_ || _); [done|]. destruct (negb _); [done|].
  intros [= <-]. cbn. split; [reflexivity|]. intros Hf.
  assert (∀ a', advancedSecurityDataCollectionFlag a' = false →
                getUserContextData a' = undefined) as Hoff.
  { intros a' Hoff. unfold getUserContextData. rewrite Hoff.
    by destruct AmazonCognitoAdvancedSecurityData. }
  split.
  - apply Hoff. cbn. by rewrite Hf.
  - intros s st. unfold sign_in_url. rewrite Hoff by (cbn; by rewrite Hf).
    cbn [truthy]. by rewrite string_app_nil_r.
Qed.

(** ** The random state *)

Section RandomString.
Context `{Collaborators}.

Lemma Qfloor_plus_half (n : Z) : Qfloor (inject_Z n + (1 # 2)) = n.
Proof.
  unfold Qfloor, Qplus, inject_Z. cbn.
  symmetry. apply (Z.div_unique_pos _ _ _ 1); lia.
Qed.

(** For a draw in [0, 1) the rounded index lies within the alphabet. *)
Lemma Math_round_index (r : Q) (n : Z) :
  (0 <= r)%Q → (r < 1)%Q → 0 ≤ n →
  0 ≤ Math_round (r * inject_Z n) ≤ n.
Proof.
  intros H0 H1 Hn. unfold Math_round.
  assert (0 <= inject_Z n)%Q as HnQ.
  { change 0%Q with (inject_Z 0). by rewrite <- Zle_Qle. }
  assert (0 <= r * inject_Z n)%Q as Hlo by by apply Qmult_le_0_compat.
  assert (r * inject_Z n <= inject_Z n)%Q as Hhi.
  { rewrite <- (Qmult_1_l (inject_Z n)) at 2.
    apply Qmult_le_compat_r; [by apply Qlt_le_weak|done]. }
  split.
  - change 0 with (Qfloor 0). apply Qfloor_resp_le.
    apply Qle_trans with (0 + (1 # 2))%Q; [done|].
    apply Qplus_le_compat; [done|apply Qle_refl].
  - rewrite <- (Qfloor_plus_half n) at 2. apply Qfloor_resp_le.
    apply Qplus_le_compat; [done|apply Qle_refl].
Qed.

Lemma string_get_in_range (n : nat) (chars : string) :
  (n < String.length chars)%nat →
  ∃ c, String.get n chars = Some c ∧ c ∈ String.list_ascii_of_string chars.
Proof.
  revert n. induction chars as [|d chars IH]; intros n Hn; cbn in *; [lia|].
  destruct n as [|n].
  - exists d. split; [done|]. by left.
  - destruct (IH n) as (c & Hc & Hin); [lia|].
    exists c. split; [done|]. by right.
Qed.

Lemma char_at_in_range (chars : string) (i : Z) :
  0 ≤ i < Z.of_nat (String.length chars) →
  ∃ c, char_at chars i = String c ""
       ∧ c ∈ String.list_ascii_of_string chars.
Proof.
  intros Hi. unfold char_at.
  destruct (Z.ltb_spec i 0) as [?|_]; [lia|].
  destruct (string_get_in_range (Z.to_nat i) chars) as (c & -> & Hc); [lia|].
  by exists c.
Qed.

Lemma random_string_spec (i : nat) (chars result : string) (k : nat) :
  chars ≠ "" →
  (∀ j, (0 <= Math_random j)%Q ∧ (Math_random j < 1)%Q) →
  String.length (random_string i chars result k)
  = (String.length result + i)%nat
  ∧ ∀ c, c ∈ String.list_ascii_of_string (random_string i chars result k) →
         c ∈ String.list_ascii_of_string result
         ∨ c ∈ String.list_ascii_of_string chars.
Proof.
  intros Hne Hr. revert result k.
  induction i as [|i IH]; intros result k; cbn [random_string].
  - split; [lia|]. by left.
  - destruct (char_at_in_range chars
                (Math_round (Math_random k
                   * inject_Z (Z.of_nat (String.length chars) - 1))))
      as (c0 & Hc0 & Hin0).
    { destruct (Hr k) as [H0 H1].
      assert (0 < String.length chars)%nat
        by (destruct chars; [done|cbn; lia]).
      pose proof (Math_round_index (Math_random k)
                    (Z.of_nat (String.length chars) - 1) H0 H1). lia. }
    rewrite Hc0. destruct (IH (result +:+ String c0 "") (S k)) as [Hlen Hmem].
    split.
    + rewrite Hlen, string_length_app. cbn. lia.
    + intros c Hc. destruct (Hmem c Hc) as [Hl|Hr']; [|by right].
      rewrite list_ascii_of_string_app, elem_of_app in Hl. cbn in Hl.
      destruct Hl as [?|Hl]; [by left|].
      apply list_elem_of_singleton in Hl as ->. by right.
Qed.

End RandomString.

(** X20. Over a non-empty alphabet and with draws in [0, 1),
    [generateRandomString] takes exactly [length] draws and returns a string
    of exactly [length] characters, each one of the alphabet; it never
    throws. *)
Theorem generateRandomString_length_and_alphabet
  `{Collaborators} (length : nat) (chars : string) (w : World) :
  chars ≠ "" →
  (∀ j, (0 <= Math_random j)%Q ∧ (Math_random j < 1)%Q) →
  ∃ st : string,
    generateRandomString length chars w = (advance length w, Normal st)
    ∧ String.length st = length
    ∧ ∀ c, c ∈ String.list_ascii_of_string st →
           c ∈ String.list_ascii_of_string chars.
Proof.
  intros Hne Hr. rewrite generateRandomString_run. eexists.
  split; [reflexivity|].
  destruct (random_string_spec length chars "" (draws w) Hne Hr) as [Hl Hm].
  split; [exact Hl|].
  intros c Hc. destruct (Hm c Hc) as [Hn|?]; [|done].
  cbn in Hn. by apply elem_of_nil in Hn.
Qed.

(** ** The form body of a request *)

Section FormBody.

Lemma substring_prefix (s t : string) :
  String.substring 0 (String.length s) (s +:+ t) = s.
Proof.
  induction s as [|c s IH].
  - rewrite string_app_nil_l. by destruct t.
  - rewrite string_app_cons. cbn. by rewrite IH.
Qed.

Lemma drop_last_ampersand (s : string) : drop_last (s +:+ "&") = s.
Proof.
  unfold drop_last. rewrite string_length_app. cbn.
  replace (String.length s + 1 - 1)%nat with (String.length s) by lia.
  apply substring_prefix.
Qed.

Lemma body_loop (bodyString : string) (body : list (string * jstr)) :
  body ≠ [] →
  foldl (λ bodyString kv,
           Js.concat bodyString
             [fst kv; EQUALSIGN; to_String (snd kv); AMPERSAND])
        bodyString body
  = bodyString
    +:+ join "&" (map (λ kv, fst kv +:+ "=" +:+ to_String (snd kv)) body)
    +:+ "&".
Proof.
  revert bodyString. induction body as [|kv [|kv' rest] IH];
    intros bodyString Hne; [done|..].
  - cbn. unfold EQUALSIGN, AMPERSAND. by rewrite !string_app_assoc.
  - change (foldl ?f bodyString (kv :: ?l))
      with (foldl f (f bodyString kv) l).
    rewrite IH by done. cbn [Js.concat foldl map].
    change (join "&" (?x :: ?y :: ?l)) with (x +:+ "&" +:+ join "&" (y :: l)).
    unfold EQUALSIGN, AMPERSAND. by rewrite !string_app_assoc.
Qed.

End FormBody.

(** X21. The form body [makePOSTRequest] builds is the [key=value] pairs of
    the body in their order, joined by [&]: no trailing [&], the empty
    string for an empty body, and every value written as it is (a value that
    is [undefined] as the text [undefined]), without any encoding. *)
Theorem bodyString_joins_pairs (body : list (string * jstr)) :
  bodyString body
  = join "&" (map (λ kv, fst kv +:+ "=" +:+ to_String (snd kv)) body).
Proof.
  unfold bodyString. destruct body as [|kv rest]; [done|].
  rewrite body_loop by done. rewrite string_app_nil_l.
  apply drop_last_ampersand.
Qed.

(** X22. [onSuccessRefreshToken], for a held session: on an answer with an
    [error] it launches the sign-in URL and its promise resolves with
    [undefined], leaving session and cache alone; on any other answer it
    takes the id and access tokens the answer has, saves the session and
    resolves with it.  Either way it sends nothing and calls no handler. *)
Theorem onSuccessRefreshToken_outcome
  `{Collaborators} (jsonDataObject : gmap string jstr) (w : World)
    (s : CognitoAuthSession) :
  signInUserSession (this w) = Some s →
  onSuccessRefreshToken jsonDataObject w
  = if has jsonDataObject ERROR
    then (logged
            [LaunchUri (sign_in_url (this w) s
                          (to_String (state (this (with_fresh_state w)))))]
            (with_fresh_state w),
          Normal (Fulfilled None))
    else (on_this (holding_saved (refreshed jsonDataObject s)) w,
          Normal (Fulfilled (Some (refreshed jsonDataObject s)))).
Proof.
  intros Hs. unfold onSuccessRefreshToken, then_, refreshed, holding_saved.
  destruct (has jsonDataObject ERROR).
  - run. rewrite (getFQDNSignIn_run w s Hs). by run.
  - destruct w as [a l c d]. cbn [this] in Hs.
    destruct (has jsonDataObject IDTOKEN), (has jsonDataObject ACCESSTOKEN);
      run; rewrite ?Hs; run;
      (erewrite cacheTokensScopes_run by (cbn; first [reflexivity|exact Hs]));
      run; unfold on_this; cbn; destruct a; cbn in Hs; subst; reflexivity.
Qed.

(** * The further properties at the concrete platform *)

Ltac by_eval := vm_compute; first [reflexivity | discriminate].

Section FurtherInstances.
Import Fixture.
Local Existing Instance platform.


Lemma getSession_reloaded_valid_witness :
  signInUserSession (this reload_world) = Some held
  ∧ isValid (clock reload_world) held = false
  ∧ isValid (clock reload_world) (getCachedSession (this reload_world)) = true
  ∧ ∃ w' : World,
      getSession reload_world
      = (w', Normal (Fulfilled (Some (getCachedSession (this reload_world))))).
Proof.
  split_and!; [by_eval..|].
  destruct (getSession_reloaded_valid reload_world held)
    as (w' & E & _); [by_eval..|].
  exists w'. exact E.
Defined.

Lemma getSession_no_refresh_token_witness :
  signInUserSession (this no_cache_world) = Some held
  ∧ truthy (getToken (refreshToken (getCachedSession (this no_cache_world))))
    = false
  ∧ ∃ w' : World,
      getSession no_cache_world = (w', Normal (Fulfilled None))
      ∧ launches (log w')
        = [sign_in_url (this no_cache_world) held
             (to_String (state (this (with_fresh_state no_cache_world))))].
Proof.
  split_and!; [by_eval..|].
  destruct (getSession_no_refresh_token no_cache_world held)
    as (w' & E & _ & Hl); [by_eval..|].
  exists w'. split; [exact E|]. rewrite Hl. reflexivity.
Defined.

Lemma getSession_held_scopes_mismatch_witness :
  compareSets (Set_new (tokenScopesArray (this mismatch_world)))
    (Set_new ["email"]) = false
  ∧ (getSession mismatch_world).2 = Normal (Fulfilled None).
Proof.
  split; [by_eval|].
  rewrite (getSession_held_scopes_mismatch mismatch_world
             (setTokenScopes (new_CognitoTokenScopes ["email"]) held));
    [reflexivity|by_eval..].
Defined.

Lemma getSession_refresh_under_implicit_flow_witness :
  responseType (this implicit_world) = TOKEN
  ∧ userhandler (this implicit_world) = true
  ∧ ∃ w' : World,
      getSession implicit_world = (w', Throw TypeError)
      ∧ log w' = [OnFailure (ErrorValue REFRESHTYPEERROR)].
Proof.
  split_and!; [by_eval..|].
  destruct (getSession_refresh_under_implicit_flow implicit_world held)
    as (w' & E & _ & Hl); [by_eval..|].
  exists w'. split; [exact E|exact Hl].
Defined.

Lemma getSession_refresh_succeeds_witness :
  responseType (this code_world) = CODE
  ∧ fresh_tokens !! ERROR = None
  ∧ ∃ w' : World,
      getSession code_world
      = (w', Normal (Fulfilled
               (Some (refreshed fresh_tokens
                        (getCachedSession (this code_world)))))).
Proof.
  split_and!; [by_eval..|].
  destruct (getSession_refresh_succeeds code_world held fresh_tokens)
    as (w' & E & _); [by_eval..|].
  exists w'. exact E.
Defined.

Lemma refreshSession_error_answer_witness :
  has refusal ERROR = true
  ∧ ∃ w' : World,
      refreshSession (H := platform_refusing) (str "bob.refresh") code_world
      = (w', Normal (Some (Rejected (ErrorObj REFRESHTYPEERROR))))
      ∧ signInUserSession (this w') = Some held
      ∧ storage (this w') = storage (this code_world).
Proof.
  split; [by_eval|].
  destruct (refreshSession_error_answer (H := platform_refusing) code_world
              (str "bob.refresh") held refusal)
    as (w' & E & _ & Hs & Hsto & _); [by_eval..|].
  exists w'. split_and!; [exact E|exact Hs|exact Hsto].
Defined.

Lemma refreshSession_transport_failure_witness :
  responseType (this code_world) = CODE
  ∧ refreshSession (H := platform_down) (str "bob.refresh") code_world
    = (logged
         [PostRequest (refresh_request (H := platform_down) (this code_world)
                         (str "bob.refresh"))]
         code_world,
       Normal (Some (Rejected (TransportError "Service Unavailable")))).
Proof.
  split; [by_eval|].
  apply (refreshSession_transport_failure (H := platform_down) code_world
           (str "bob.refresh") "Service Unavailable"); by_eval.
Defined.


Lemma parseCognitoWebResponse_implicit_error_routed_witness :
  responseType (this implicit_world) = TOKEN
  ∧ ∃ w' : World,
      parseCognitoWebResponse "https://app.example.com/cb#error=access_denied"
        implicit_world
      = (w', Normal (Fulfilled None))
      ∧ this w' = this implicit_world.
Proof.
  split; [by_eval|].
  destruct (parseCognitoWebResponse_implicit_error_routed
              "https://app.example.com/cb#error=access_denied" implicit_world)
    as (w' & E & Ht & _); [by_eval..|].
  exists w'. split; [exact E|exact Ht].
Defined.

Lemma parseCognitoWebResponse_code_error_thrown_witness :
  responseType (this code_world) ≠ TOKEN
  ∧ parseCognitoWebResponse "https://app.example.com/cb?error=access_denied"
      code_world
    = (code_world, Throw (ErrorObj PARSETYPEERROR)).
Proof.
  split; [by_eval|].
  apply (parseCognitoWebResponse_code_error_thrown
           "https://app.example.com/cb?error=access_denied" code_world);
    by_eval.
Defined.

Lemma parseCognitoWebResponse_code_missing_witness :
  has (getQueryParameters "https://app.example.com/cb" (SplitString "?")) CODE
  = false
  ∧ (parseCognitoWebResponse "https://app.example.com/cb" code_world).2
    = Throw TypeError.
Proof.
  split; [by_eval|].
  rewrite (parseCognitoWebResponse_code_missing "https://app.example.com/cb"
             code_world held); [reflexivity|by_eval..].
Defined.


Lemma cacheTokensScopes_getCachedSession_round_trip_witness :
  getUsername (accessToken held) = str "bob"
  ∧ Forall storable_scope (getScopes (tokenScopes held))
  ∧ ∃ w' : World,
      cacheTokensScopes code_world = (w', Normal ())
      ∧ getCachedSession (this w') = held
      ∧ getLastUser (this w') = str "bob".
Proof.
  assert (Forall storable_scope (getScopes (tokenScopes held))) as Hsc.
  { cbn. repeat constructor; try discriminate;
      apply (bool_decide_unpack _); by vm_compute. }
  split; [by_eval|]. split; [exact Hsc|].
  destruct (cacheTokensScopes_getCachedSession_round_trip code_world held "bob")
    as (w' & E & Hc & Hl & _); [by_eval|by_eval|discriminate|exact Hsc|].
  exists w'. split_and!; [exact E|exact Hc|exact Hl].
Defined.

Lemma cacheTokensScopes_then_clear_witness :
  signInUserSession (this code_world) = Some held
  ∧ ∃ w1 w2 : World,
      cacheTokensScopes code_world = (w1, Normal ())
      ∧ clearCachedTokensScopes w1 = (w2, Normal ())
      ∧ storage (this w2) !! userKey (this code_world) "bob" ".refreshToken"
        = None
      ∧ storage (this w2) !! userKey (this code_world) "eve" ".idToken"
        = Some (str "eve.id").
Proof.
  split; [by_eval|].
  destruct (cacheTokensScopes_then_clear code_world held)
    as (w1 & w2 & E1 & E2 & Hl & _); [by_eval|].
  exists w1, w2. split_and!; [exact E1|exact E2|..]; rewrite Hl; by_eval.
Defined.

Lemma constructor_requires_parameters_witness :
  ClientId options_without_client = ""
  ∧ constructor options_without_client true
    = Throw (ErrorObj PARAMETERERROR).
Proof.
  split; [reflexivity|].
  apply (constructor_requires_parameters options_without_client true).
  left. reflexivity.
Defined.

Lemma constructor_holds_configured_scopes_witness :
  TokenScopesArray options = Some ["openid"; "profile"]
  ∧ ∃ a : CognitoAuth,
      constructor options false = Normal a
      ∧ username a = str "bob"
      ∧ signInUserSession a = Some held.
Proof.
  split; [reflexivity|].
  destruct (constructor_holds_configured_scopes options false
              ["openid"; "profile"])
    as (a & E & _ & _ & Hu & Hs & _); [discriminate..|reflexivity|].
  exists a. split; [exact E|].
  assert (a = built false) as ->.
  { unfold built. by rewrite E. }
  split; by_eval.
Defined.

Lemma constructor_collection_flag_defaults_off_witness :
  AdvancedSecurityDataCollectionFlag options_without_flag = None
  ∧ ∃ a : CognitoAuth,
      constructor (H := platform_with_collector) options_without_flag true
      = Normal a
      ∧ advancedSecurityDataCollectionFlag a = false
      ∧ getUserContextData (H := platform_with_collector) a = undefined.
Proof.
  split; [reflexivity|].
  eexists. split; [reflexivity|].
  match goal with
  | |- advancedSecurityDataCollectionFlag ?a = _ ∧ _ =>
      destruct (constructor_collection_flag_defaults_off
                  (H := platform_with_collector) options_without_flag true a
                  eq_refl) as [Hf Hoff]
  end.
  split; [exact Hf|]. apply Hoff. reflexivity.
Defined.

Lemma generateRandomString_length_and_alphabet_witness :
  STATEORIGINSTRING ≠ ""
  ∧ ∃ st : string,
      generateRandomString STATELENGTH STATEORIGINSTRING code_world
      = (advance STATELENGTH code_world, Normal st)
      ∧ String.length st = STATELENGTH.
Proof.
  split; [discriminate|].
  destruct (generateRandomString_length_and_alphabet STATELENGTH
              STATEORIGINSTRING code_world) as (st & E & Hl & _).
  - discriminate.
  - intros j. cbn. unfold Qle, Qlt. cbn.
    pose proof (Nat.mod_upper_bound j 10). lia.
  - exists st. split; [exact E|exact Hl].
Defined.

Lemma onSuccessRefreshToken_outcome_witness :
  signInUserSession (this code_world) = Some held
  ∧ (onSuccessRefreshToken refusal code_world).2 = Normal (Fulfilled None)
  ∧ (onSuccessRefreshToken fresh_tokens code_world).2
    = Normal (Fulfilled (Some (refreshed fresh_tokens held))).
Proof.
  split; [by_eval|].
  split; (rewrite (onSuccessRefreshToken_outcome _ code_world held);
          [reflexivity|by_eval]).
Defined.

End FurtherInstances.
